(** * Resume assistant back-end: skill matching, resume optimiser, exporter

    A shallow embedding of [services/analyzer.py],
    [services/pdf_generator.py] and the request handlers of [main.py],
    followed by the properties of the natural-language specification
    that were checked against it.

    Conventions of the embedding.
    - A Python [str] is a list of Unicode code points ([N]); string
      literals of the source are written as Rocq strings and converted
      with [py].
    - A Python [set] of strings is a [gset str].
    - A Python [float] is the rational number it denotes; every
      arithmetic operation rounds its exact result to the nearest
      binary64 value ([fl]).
    - A raised exception is the [Raise] branch of [Res]. *)

From Stdlib Require Import ZArith NArith QArith Qpower Qround Qabs Lqa Lia List Ascii String.
From Stdlib Require Import DecimalString.
From stdpp Require Import base gmap sets list sorting.

#[local] Open Scope N_scope.

(** ** Python values *)

Module Py.

(** Text: a sequence of code points. *)
Abbreviation str := (list N) (only parsing).

Definition py (s : string) : str :=
  map N_of_ascii (list_ascii_of_string s).

(** [bytes]: a sequence of octets. *)
Abbreviation bytes := (list N) (only parsing).

(** The exceptions the modelled code can raise. *)
Inductive exn : Type :=
  | ValueError (msg : str)
  | RuntimeError (msg : str)
  | ZeroDivisionError
  | UnicodeEncodeError.

Inductive Res (A : Type) : Type :=
  | Ok (a : A)
  | Raise (e : exn).
Arguments Ok {A} a.
Arguments Raise {A} e.

Definition bind {A B} (m : Res A) (k : A -> Res B) : Res B :=
  match m with
  | Ok a => k a
  | Raise e => Raise e
  end.

Definition is_ok {A} (m : Res A) : bool :=
  match m with Ok _ => true | Raise _ => false end.

(** Truthiness of a string: [if s], [s or d]. *)
Definition truthy (s : str) : bool :=
  match s with [] => false | _ :: _ => true end.

Definition or_else (s d : str) : str := if truthy s then s else d.

(** [sep.join(parts)] *)
Fixpoint join (sep : str) (parts : list str) : str :=
  match parts with
  | [] => []
  | [p] => p
  | p :: rest => p ++ sep ++ join sep rest
  end.

(** [str.isspace] on one code point (Py_UNICODE_ISSPACE). *)
Definition is_space (c : N) : bool :=
  ((9 <=? c) && (c <=? 13)) || ((28 <=? c) && (c <=? 32))
  || (c =? 133) || (c =? 160) || (c =? 5760)
  || ((8192 <=? c) && (c <=? 8202))
  || (c =? 8232) || (c =? 8233) || (c =? 8239) || (c =? 8287)
  || (c =? 12288).

(** Line boundaries of [str.splitlines] (Py_UNICODE_ISLINEBREAK). *)
Definition is_linebreak (c : N) : bool :=
  ((10 <=? c) && (c <=? 13)) || ((28 <=? c) && (c <=? 30))
  || (c =? 133) || (c =? 8232) || (c =? 8233).

Fixpoint lstrip (s : str) : str :=
  match s with
  | [] => []
  | c :: rest => if is_space c then lstrip rest else s
  end.

Definition rstrip (s : str) : str := rev (lstrip (rev s)).

(** [s.strip()] *)
Definition strip (s : str) : str := rstrip (lstrip s).

(** [s.splitlines()]: [cur] is the current line, reversed.  A carriage
    return directly followed by a line feed is one boundary; no empty
    line is produced after a final boundary. *)
Fixpoint splitlines_from (cur : str) (s : str) : list str :=
  match s with
  | [] => match cur with [] => [] | _ => [rev cur] end
  | c :: rest =>
      if is_linebreak c then
        rev cur ::
          match rest with
          | c' :: rest' =>
              if (c =? 13) && (c' =? 10) then splitlines_from [] rest'
              else splitlines_from [] rest
          | [] => splitlines_from [] rest
          end
      else splitlines_from (c :: cur) rest
  end.

Definition splitlines (s : str) : list str := splitlines_from [] s.

(** [s.startswith(p)] *)
Fixpoint startswith (s p : str) : bool :=
  match p, s with
  | [], _ => true
  | _ :: _, [] => false
  | a :: p', b :: s' => (a =? b) && startswith s' p'
  end.

(** [str.lower] on a code point below 128. *)
Definition ascii_lower (c : N) : N :=
  if (65 <=? c) && (c <=? 90) then c + 32 else c.

Definition is_ascii (c : N) : bool := c <? 128.

(** Lexicographic order on code points: [<=] on [str], as used by
    [sorted]. *)
Fixpoint str_leb (a b : str) : bool :=
  match a, b with
  | [], _ => true
  | _ :: _, [] => false
  | x :: a', y :: b' => (x <? y) || ((x =? y) && str_leb a' b')
  end.

End Py.

(** ** The Unicode tables of the interpreter

    [str.lower] maps [A-Z] to [a-z] on text made of code points below
    128.  On other text it follows the Unicode case tables, which are not
    part of the repository; they are a parameter of the development. *)

Class Unicode : Type := { unicode_lower : Py.str -> Py.str }.

Definition lower `{Unicode} (s : Py.str) : Py.str :=
  if forallb Py.is_ascii s then map Py.ascii_lower s else unicode_lower s.

(** ** services/analyzer.py: tokenizer and skill extractor *)

Module Analyzer.
Import Py.

Definition skill_names : list string :=
  [ "python"; "fastapi"; "flask"; "django"; "sql"; "nosql"; "mongodb"; "postgresql";
    "docker"; "kubernetes"; "aws"; "gcp"; "azure"; "ci/cd"; "github actions";
    "unit testing"; "pytest"; "rest"; "graphql"; "redis"; "celery"; "rabbitmq";
    "nlp"; "machine learning"; "data science"; "pandas"; "numpy"; "transformers" ]%string.

Definition KNOWN_SKILLS : gset str := list_to_set (map py skill_names).

(** The character class of [_WORD_SPLIT_RE] is the complement of
    [[a-zA-Z0-9+#]]. *)
Definition is_word_char (c : N) : bool :=
  ((97 <=? c) && (c <=? 122)) || ((65 <=? c) && (c <=? 90))
  || ((48 <=? c) && (c <=? 57)) || (c =? 43) || (c =? 35).

(** [_WORD_SPLIT_RE.split(text)]: the pieces between maximal runs of
    delimiters, with an empty piece before a leading run and after a
    trailing one.  [in_run] says that the previous character was a
    delimiter, [cur] is the current piece, reversed. *)
Fixpoint split_from (in_run : bool) (cur : str) (text : str) : list str :=
  match text with
  | [] => [rev cur]
  | c :: rest =>
      if is_word_char c then split_from false (c :: cur) rest
      else if in_run then split_from true [] rest
      else rev cur :: split_from true [] rest
  end.

Definition WORD_SPLIT_RE_split (text : str) : list str := split_from false [] text.

(** The [while] loop of [_normalize]: [i] is the index, [merged] the
    list built so far.  Every iteration advances [i], so [len(tokens)]
    iterations are enough; [fuel] counts them down. *)
Fixpoint merge_loop (fuel : nat) (tokens : list str) (i : nat) (merged : list str)
  : list str :=
  match fuel with
  | O => merged
  | S fuel =>
      match tokens !! i with
      | None => merged
      | Some current =>
          let nxt := tokens !! (i + 1)%nat in
          match nxt with
          | Some nxt =>
              if truthy nxt && bool_decide (current ++ py " " ++ nxt ∈ KNOWN_SKILLS)
              then merge_loop fuel tokens (i + 2) (merged ++ [current ++ py " " ++ nxt])
              else merge_loop fuel tokens (i + 1) (merged ++ [current])
          | None => merge_loop fuel tokens (i + 1) (merged ++ [current])
          end
      end
  end.

Section WithUnicode.
Context `{Unicode}.

(** The comprehension that builds [tokens] in [_normalize]. *)
Definition tokenize (text : str) : list str :=
  map (fun t => lower (strip t))
      (filter (fun t => truthy (strip t) = true) (WORD_SPLIT_RE_split text)).

Definition _normalize (text : str) : list str :=
  let tokens := tokenize text in
  merge_loop (length tokens) tokens 0 [].

Definition _extract_skills (text : str) : gset str :=
  foldl (fun present token =>
           if bool_decide (token ∈ KNOWN_SKILLS) then present ∪ {[ token ]} else present)
        ∅ (_normalize text).

End WithUnicode.
End Analyzer.

(** ** Python floats

    A finite binary64 value is modelled by the rational it denotes.  [fl]
    rounds a rational to the nearest value with a 53-bit significand and
    an exponent of at least [emin], ties to even.  The exponent has no
    upper limit here: the quantities of this program are bounded by 100
    times the length of a text, far below the overflow threshold. *)

Module Float.
Import Py.
#[local] Open Scope Z_scope.
#[local] Open Scope Q_scope.

Definition pow2 (e : Z) : Q := (2 # 1) ^ e.

(** Nearest integer, ties to even. *)
Definition rhe (q : Q) : Z :=
  let f := Qfloor q in
  match Qcompare (q - inject_Z f) (1 # 2) with
  | Lt => f
  | Gt => (f + 1)%Z
  | Eq => if Z.even f then f else (f + 1)%Z
  end.

(** [floor (log2 x)] for [0 < x]. *)
Definition ilog2 (x : Q) : Z :=
  let k := (Z.log2 (Qnum x) - Z.log2 (Zpos (Qden x)))%Z in
  if Qle_bool (pow2 k) x then k else (k - 1)%Z.

Definition emin : Z := (-1074)%Z.

(** Exponent of the unit in the last place of the binary64 values
    around [x]. *)
Definition expo (x : Q) : Z := Z.max (ilog2 (Qabs x) - 52) emin.

Definition fl (x : Q) : Q :=
  Qred (inject_Z (rhe (x / pow2 (expo x))) * pow2 (expo x)).

(** [float(n)], the implicit conversion of an [int] operand. *)
Definition of_int (n : Z) : Q := fl (inject_Z n).

Definition fmul (a b : Q) : Q := fl (a * b).
Definition fsub (a b : Q) : Q := fl (a - b).

Definition fdiv (a b : Q) : Res Q :=
  if Qeq_bool b 0 then Raise ZeroDivisionError else Ok (fl (a / b)).

(** [round(x, 1)]: the exact value of [x] is rounded to one decimal,
    ties to even, and the decimal is converted to the nearest float. *)
Definition round1 (x : Q) : Q := fl (inject_Z (rhe (x * 10)) / 10).

(** The builtins [min(a, b)] and [max(a, b)]: the first argument is kept
    unless the second is strictly smaller (larger). *)
Definition py_min (a b : Q) : Q :=
  match Qcompare b a with Lt => b | _ => a end.
Definition py_max (a b : Q) : Q :=
  match Qcompare b a with Gt => b | _ => a end.

Definition ltb (a b : Q) : bool :=
  match Qcompare a b with Lt => true | _ => false end.

End Float.

(** ** services/analyzer.py: matcher, suggestions, optimiser *)

Module Matcher.
Import Py Analyzer Float.

Record AnalysisResult : Type := {
  match_percent : Q;
  missing_skills : list str;
  suggestions : list str;
  ats_score : Q
}.

Definition str_le (a b : str) : Prop := Is_true (str_leb a b).

(** [sorted(list(s))] *)
Definition sorted_list (s : gset str) : list str := merge_sort str_le (elements s).

(** [len] of a list and of a set, and the truth value of a list. *)
Definition int_len {A} (l : list A) : Z := Z.of_nat (length l).
Definition set_len (s : gset str) : Z := Z.of_nat (size s).
Definition nonempty {A} (l : list A) : bool :=
  match l with [] => false | _ :: _ => true end.

(** The advice texts of [analyze_resume]. *)
Definition msg_quantify : str :=
  py "Highlight relevant experience and quantify achievements with metrics (%, $, time).".
Definition msg_consider (missing : list str) : str :=
  py "Consider learning or emphasizing: " ++ join (py ", ") (take 8 missing).
Definition msg_fastapi : str :=
  py "Add FastAPI projects or APIs to showcase backend skills.".
Definition msg_kubernetes : str :=
  py "Explore Kubernetes basics to complement Docker skills.".
Definition msg_great : str :=
  py "Great alignment. Ensure resume is concise (1-2 pages) and well-formatted.".

Definition optimize_resume (resume_text : str) : str :=
  let lines :=
    map strip (filter (fun l => truthy (strip l) = true)
                      (splitlines (or_else resume_text []))) in
  let bulletized :=
    map (fun l => if startswith l (py "-") then l else py "- " ++ l) lines in
  let header :=
    py "SUMMARY" ++ [10]
    ++ py "Results-driven professional with measurable achievements." ++ [10] in
  header ++ join [10] bulletized.

Section WithUnicode.
Context `{Unicode}.

Definition analyze_resume (resume_text job_description : str) : Res AnalysisResult :=
  let resume_skills := _extract_skills resume_text in
  let job_skills := _extract_skills job_description in
  bind
    (if bool_decide (job_skills = ∅) then
       (* fallback: token overlap *)
       let resume_tokens : gset str := list_to_set (_normalize resume_text) in
       let job_tokens : gset str := list_to_set (_normalize job_description) in
       let overlap := set_len (resume_tokens ∩ job_tokens) in
       let denom := Z.max 1 (set_len job_tokens) in
       bind (fdiv (fmul 100 (of_int overlap)) (of_int denom)) (fun x =>
       Ok (round1 x, []))
     else
       let overlap := set_len (resume_skills ∩ job_skills) in
       let denom := Z.max 1 (set_len job_skills) in
       bind (fdiv (fmul 100 (of_int overlap)) (of_int denom)) (fun x =>
       Ok (round1 x, sorted_list (job_skills ∖ resume_skills))))
    (fun '(percent, missing) =>
  let advice : list str := [] in
  let advice := if ltb percent 60 then advice ++ [msg_quantify] else advice in
  let advice := if nonempty missing then advice ++ [msg_consider missing] else advice in
  let advice :=
    if bool_decide (py "python" ∈ resume_skills)
       && negb (bool_decide (py "fastapi" ∈ resume_skills))
    then advice ++ [msg_fastapi] else advice in
  let advice :=
    if bool_decide (py "docker" ∈ resume_skills)
       && negb (bool_decide (py "kubernetes" ∈ resume_skills))
    then advice ++ [msg_kubernetes] else advice in
  let penalty := py_min 30 (fmul 5 (of_int (int_len missing))) in
  let ats := round1 (py_max 0 (py_min 100 (fsub percent penalty))) in
  Ok {| match_percent := percent;
        missing_skills := missing;
        suggestions := if nonempty advice then advice else [msg_great];
        ats_score := ats |}).

End WithUnicode.
End Matcher.

(** ** services/pdf_generator.py *)

Module Exporter.
Import Py.

(** The calls made on an [FPDF] object and on a [docx] document. *)
Inductive fpdf_call : Type :=
  | set_auto_page_break (auto : bool) (margin : Z)
  | add_page
  | set_font (family style : str) (size : Z)
  | cell (w h : Z) (txt : str) (ln : bool)
  | multi_cell (w h : Z) (txt : str)
  | ln (h : Z).

Inductive docx_call : Type :=
  | add_heading (txt : str) (level : Z)
  | add_paragraph (txt : str).

(** The third-party libraries: whether [import docx] succeeded, what
    [FPDF.output(dest="S")] returns after a sequence of calls, and the
    bytes [Document.save] writes. *)
Class Libraries : Type := {
  _DOCX_AVAILABLE : bool;
  fpdf_output : list fpdf_call -> Res str;
  docx_save : list docx_call -> Res bytes
}.

(** [text.encode("utf-8")], one code point at a time.  Surrogates have
    no UTF-8 form and the codec raises on them. *)
Definition utf8_of_codepoint (c : N) : Res bytes :=
  if c <? 0x80 then Ok [c]
  else if c <? 0x800 then
    Ok [N.lor 0xC0 (N.shiftr c 6); N.lor 0x80 (N.land c 0x3F)]
  else if (0xD800 <=? c) && (c <=? 0xDFFF) then Raise UnicodeEncodeError
  else if c <? 0x10000 then
    Ok [N.lor 0xE0 (N.shiftr c 12);
        N.lor 0x80 (N.land (N.shiftr c 6) 0x3F);
        N.lor 0x80 (N.land c 0x3F)]
  else if c <? 0x110000 then
    Ok [N.lor 0xF0 (N.shiftr c 18);
        N.lor 0x80 (N.land (N.shiftr c 12) 0x3F);
        N.lor 0x80 (N.land (N.shiftr c 6) 0x3F);
        N.lor 0x80 (N.land c 0x3F)]
  else Raise UnicodeEncodeError.

Fixpoint encode_utf8 (text : str) : Res bytes :=
  match text with
  | [] => Ok []
  | c :: rest =>
      bind (utf8_of_codepoint c) (fun b =>
      bind (encode_utf8 rest) (fun bs => Ok (b ++ bs)))
  end.

(** [text.encode("latin-1")] *)
Fixpoint encode_latin1 (text : str) : Res bytes :=
  match text with
  | [] => Ok []
  | c :: rest =>
      if c <? 256 then bind (encode_latin1 rest) (fun bs => Ok (c :: bs))
      else Raise UnicodeEncodeError
  end.

(** [text.encode("latin-1", "replace").decode("latin-1")] *)
Definition _to_latin1 (text : str) : str :=
  map (fun c => if c <? 256 then c else 63) text.

(** [text.split("\n\n")] *)
Fixpoint split_blank_from (cur : str) (text : str) : list str :=
  match text with
  | [] => [rev cur]
  | c :: rest =>
      match rest with
      | c' :: rest' =>
          if (c =? 10) && (c' =? 10) then rev cur :: split_blank_from [] rest'
          else split_blank_from (c :: cur) rest
      | [] => split_blank_from (c :: cur) rest
      end
  end.

Definition split_blank (text : str) : list str := split_blank_from [] text.

Section WithLibraries.
Context `{Unicode} `{Libraries}.

Definition generate_resume_pdf (resume_text : str) : Res bytes :=
  let safe_text := _to_latin1 (or_else resume_text (py "(No content provided)")) in
  let calls :=
    [ set_auto_page_break true 15; add_page;
      set_font (py "Arial") (py "B") 16;
      cell 0 10 (_to_latin1 (py "Resume")) true;
      set_font (py "Arial") [] 11 ]
    ++ flat_map (fun paragraph => [multi_cell 0 6 paragraph; ln 1])
                (split_blank safe_text) in
  bind (fpdf_output calls) encode_latin1.

Definition docx_media_type : str :=
  py "application/vnd.openxmlformats-officedocument.wordprocessingml.document".

Definition generate_resume_bytes (resume_text fmt : str) : Res (bytes * str * str) :=
  let fmt := lower (or_else fmt (py "pdf")) in
  if bool_decide (fmt = py "pdf") then
    bind (generate_resume_pdf resume_text) (fun pdf_bytes =>
    Ok (pdf_bytes, py "application/pdf", py "resume.pdf"))
  else if bool_decide (fmt = py "txt") then
    bind (encode_utf8 (or_else resume_text [])) (fun b =>
    Ok (b, py "text/plain; charset=utf-8", py "resume.txt"))
  else if bool_decide (fmt = py "docx") then
    if negb _DOCX_AVAILABLE then
      Raise (RuntimeError (py "DOCX export requires python-docx. Please install it."))
    else
      let calls :=
        add_heading (py "Resume") 1
        :: map add_paragraph (split_blank (or_else resume_text [])) in
      bind (docx_save calls) (fun b =>
      Ok (b, docx_media_type, py "resume.docx"))
  else Raise (ValueError (py "Unsupported format")).

End WithLibraries.
End Exporter.

(** ** services/analyzer.py: growth path and cover letter *)

Module Advisor.
Import Py Analyzer Matcher.

(** The advice texts of [suggest_growth_path]. *)
Definition path_api_design : str :=
  py "Deepen API design: auth, rate limiting, versioning, observability.".
Definition path_async : str :=
  py "Add async patterns, background jobs (Celery/RQ), and caching (Redis).".
Definition path_python : str :=
  py "Master typing (PEP 484), testing (pytest), and packaging.".
Definition path_cloud : str :=
  py "Build CI/CD pipelines and infrastructure as code (Terraform).".
Definition path_ml : str :=
  py "Productionize ML: model serving, monitoring, and data pipelines.".
Definition path_generic : list str :=
  [ py "Identify target role, collect 5 job descriptions, and extract required skills.";
    py "Close top 3 skill gaps via focused projects and certifications.";
    py "Publish projects with READMEs, tests, and live demos (Render/Heroku/Fly)." ].

Section WithUnicode.
Context `{Unicode}.

(** The list stored under the key "growth_path" of the returned dict. *)
Definition suggest_growth_path (resume_text : str) : list str :=
  let skills := _extract_skills resume_text in
  let path : list str := [] in
  let path :=
    if bool_decide (py "fastapi" ∈ skills) || bool_decide (py "flask" ∈ skills)
    then (path ++ [path_api_design]) ++ [path_async] else path in
  let path :=
    if bool_decide (py "python" ∈ skills) then path ++ [path_python] else path in
  let path :=
    if bool_decide (py "aws" ∈ skills) || bool_decide (py "gcp" ∈ skills)
       || bool_decide (py "azure" ∈ skills)
    then path ++ [path_cloud] else path in
  let path :=
    if bool_decide (py "nlp" ∈ skills) || bool_decide (py "machine learning" ∈ skills)
    then path ++ [path_ml] else path in
  if nonempty path then path else path_generic.

Definition generate_cover_letter_text (resume_text job_desc : str) : str :=
  let overlap := sorted_list (_extract_skills resume_text ∩ _extract_skills job_desc) in
  let highlights :=
    if nonempty overlap then join (py ", ") overlap else py "relevant experience" in
  py "Dear Hiring Manager," ++ [10; 10]
  ++ py "I am excited to apply for this role. My background aligns with your needs, including "
  ++ highlights
  ++ py ". I deliver impact through ownership, collaboration, and measurable outcomes."
  ++ [10; 10]
  ++ py "Sincerely," ++ [10] ++ py "Your Name".

End WithUnicode.
End Advisor.

(** ** main.py: the request handlers

    Logging is left out: it does not change what a handler returns.  A
    handler that raises is answered by the framework with status 500;
    here it is [Raise]. *)

Module Api.
Import Py Analyzer Float Matcher Exporter Advisor.

(** What [PyPDF2.PdfReader(...).pages] yields for uploaded bytes: opening
    or walking the document may raise; otherwise every page either
    raises in [extract_text] or returns a text or [None]. *)
Class PdfLibrary : Type := {
  PdfReader_pages : bytes -> Res (list (Res (option str)))
}.

(** [str(exc)]: the message of the exceptions built with one, and the
    interpreter's text for the others, which is ASCII (the codec error
    shows the offending character escaped). *)
Class ExnText : Type := {
  builtin_exn_text : exn -> str;
  builtin_exn_text_ascii : forall e, forallb is_ascii (builtin_exn_text e) = true
}.

Definition exn_message `{ExnText} (e : exn) : str :=
  match e with
  | ValueError msg | RuntimeError msg => msg
  | _ => builtin_exn_text e
  end.

(** [try: body except Exception as exc: handler(exc)] *)
Definition try_except {A} (body : Res A) (handler : exn -> Res A) : Res A :=
  match body with
  | Ok a => Ok a
  | Raise exc => handler exc
  end.

(** The JSON [data] objects the handlers send. *)
Inductive payload : Type :=
  | NoData
  | ResumeText (resume_text : str)
  | Analysis (result : AnalysisResult)
  | GrowthPath (growth_path : list str)
  | OptimizedResume (optimized_resume : str)
  | CoverLetter (cover_letter : str)
  | Theme (theme : str).

Record JSONResponse : Type := {
  success : bool;
  message : str;
  data : payload;
  status_code : Z
}.

Inductive response : Type :=
  | Json (body : JSONResponse)
  | Streaming (content : bytes) (media_type : str) (headers : list (str * str)).

(** The strings of a body that come from the request; the keys and the
    numbers are ASCII. *)
Definition payload_texts (d : payload) : list str :=
  match d with
  | NoData => []
  | ResumeText resume_text => [resume_text]
  | Analysis result => missing_skills result ++ suggestions result
  | GrowthPath growth_path => growth_path
  | OptimizedResume optimized_resume => [optimized_resume]
  | CoverLetter cover_letter => [cover_letter]
  | Theme theme => [theme]
  end.

(** [JSONResponse(content, status_code=...)]: the constructor renders the
    body at once, as [json.dumps(content, ensure_ascii=False, ...)
    .encode("utf-8")].  The document is the strings of the body between
    ASCII punctuation and escapes, so the codec raises exactly when it
    raises on one of the strings. *)
Definition JSONResponse_init (body : JSONResponse) : Res response :=
  bind (encode_utf8 (concat (message body :: payload_texts (data body)))) (fun _ =>
  Ok (Json body)).

(** [data or {}] *)
Definition json_response (success : bool) (message : str) (data : option payload)
  : Res response :=
  JSONResponse_init
    {| success := success;
       message := message;
       data := match data with Some d => d | None => NoData end;
       status_code := if success then 200 else 400 |}.

Definition MAX_PDF_SIZE_MB : Z := 10.

(** [format(n)] of a non-negative [int] in an f-string. *)
Definition int_str (n : Z) : str := py (NilZero.string_of_uint (N.to_uint (Z.to_N n))).

(** [a / b] on [int]s: the correctly rounded quotient. *)
Definition int_truediv (a b : Z) : Res Q :=
  if (b =? 0)%Z then Raise ZeroDivisionError else Ok (fl (inject_Z a / inject_Z b)).

Definition accepted_content_types : list str :=
  [py "application/pdf"; py "application/x-pdf"; py "application/octet-stream"].

(** The loop over the pages: a page whose extraction raises counts as
    empty, and empty pages are skipped. *)
Definition page_texts (pages : list (Res (option str))) : list str :=
  flat_map (fun page =>
              let extracted :=
                match page with
                | Ok (Some text) => or_else text []
                | Ok None => []
                | Raise _ => []
                end in
              if truthy extracted then [extracted] else [])
           pages.

Section WithEnvironment.
Context `{Unicode} `{Libraries} `{PdfLibrary} `{ExnText}.

(** The [try] statement of [upload_resume].  Both answers of its body
    are built inside it, so an answer that cannot be rendered is caught
    like a failure of the reader. *)
Definition read_pdf (file_bytes : bytes) : Res response :=
  try_except
    (bind (PdfReader_pages file_bytes) (fun pages =>
     let text_parts := page_texts pages in
     let resume_text := strip (join [10] text_parts) in
     if negb (truthy resume_text)
     then json_response false
            (py "Could not extract text from PDF. Please upload a text-based PDF.") None
     else json_response true (py "Resume uploaded") (Some (ResumeText resume_text))))
    (fun exc => json_response false (py "Failed to read PDF: " ++ exn_message exc) None).

Definition upload_resume (content_type : option str) (file_bytes : bytes) : Res response :=
  if negb (match content_type with
           | Some ct => bool_decide (ct ∈ accepted_content_types)
           | None => false
           end)
  then json_response false (py "Only PDF files are supported") None
  else if negb (nonempty file_bytes)
  then json_response false (py "Uploaded file is empty") None
  else
    bind (int_truediv (int_len file_bytes) (1024 * 1024)) (fun size_mb =>
    if ltb (inject_Z MAX_PDF_SIZE_MB) size_mb
    then json_response false (py "PDF exceeds " ++ int_str MAX_PDF_SIZE_MB ++ py " MB") None
    else read_pdf file_bytes).

Definition analyze (resume job_desc : str) : Res response :=
  try_except
    (bind (analyze_resume resume job_desc) (fun result =>
     json_response true (py "Analysis complete") (Some (Analysis result))))
    (fun exc => json_response false (py "Analysis failed: " ++ exn_message exc) None).

Definition suggest (resume : str) : Res response :=
  json_response true (py "Suggestions ready")
    (Some (GrowthPath (suggest_growth_path resume))).

Definition optimize (resume : str) : Res response :=
  json_response true (py "Resume optimized")
    (Some (OptimizedResume (optimize_resume resume))).

Definition generate_cover_letter (resume job_desc : str) : Res response :=
  json_response true (py "Cover letter generated")
    (Some (CoverLetter (generate_cover_letter_text resume job_desc))).

Definition download_pdf (resume format : str) : Res response :=
  match generate_resume_bytes resume format with
  | Raise exc => json_response false (py "Failed to generate file: " ++ exn_message exc) None
  | Ok (file_bytes, media_type, filename) =>
      Ok (Streaming file_bytes media_type
            [(py "Content-Disposition",
              py "attachment; filename=" ++ [34] ++ filename ++ [34])])
  end.

End WithEnvironment.

(** The preference store [_PREFERENCES] and its handler.  The request
    model accepts the themes "light" and "dark" only; a subscript on a
    missing key raises [KeyError]. *)
Definition initial_preferences : gmap (list N) (list N) := {[ py "theme" := py "light" ]}.

Definition UserPrefRequest (theme : str) : option str :=
  if bool_decide (theme = py "light") || bool_decide (theme = py "dark")
  then Some theme else None.

Inductive pref_outcome : Type :=
  | Invalid
  | KeyError (key : str)
  | Failed (exc : exn)
  | Replied (r : response).

Definition set_preferences (prefs : gmap (list N) (list N)) (theme : str)
  : gmap (list N) (list N) * pref_outcome :=
  let prefs := <[ py "theme" := theme ]> prefs in
  match prefs !! py "theme" with
  | Some stored =>
      match json_response true (py "Preferences saved") (Some (Theme stored)) with
      | Ok r => (prefs, Replied r)
      | Raise exc => (prefs, Failed exc)
      end
  | None => (prefs, KeyError (py "theme"))
  end.

(** A POST to /user/preferences: validation, then the handler. *)
Definition post_preferences (prefs : gmap (list N) (list N)) (theme : str)
  : gmap (list N) (list N) * pref_outcome :=
  match UserPrefRequest theme with
  | Some theme => set_preferences prefs theme
  | None => (prefs, Invalid)
  end.

End Api.

(** ** Vocabulary of the properties *)

Module Spec.
Import Py Analyzer Float Matcher Exporter.

(** A piece of text made of the characters [[a-zA-Z0-9+#]]. *)
Definition word (t : str) : Prop := Forall (fun c => is_word_char c = true) t.

(** What the loop of [_normalize] computes, by recursion on [tokens[i:]]. *)
Fixpoint merge_pairs (tokens : list str) : list str :=
  match tokens with
  | [] => []
  | current :: rest =>
      match rest with
      | nxt :: rest' =>
          if truthy nxt && bool_decide (current ++ py " " ++ nxt ∈ KNOWN_SKILLS)
          then (current ++ py " " ++ nxt) :: merge_pairs rest'
          else current :: merge_pairs rest
      | [] => [current]
      end
  end.

(** A token without "/". *)
Definition plain (t : str) : Prop := Forall (fun c => c <> 47) t.

Definition space (c : N) : Prop := is_space c = true.

(** A character that is not a line boundary, and a non-empty line. *)
Definition inline (c : N) : Prop := is_linebreak c = false.
Definition line (l : str) : Prop := l <> [] /\ Forall inline l.

(** A line that is trimmed and not empty. *)
Definition trimmed (l : str) : Prop := strip l = l /\ l <> [].

(** The parts of [optimize_resume]: the fixed header, the bullet
    prefix, and the trimmed non-blank lines of a text. *)
Definition header : str :=
  py "SUMMARY" ++ [10] ++ py "Results-driven professional with measurable achievements." ++ [10].

Definition bulletize (l : str) : str :=
  if startswith l (py "-") then l else py "- " ++ l.

Definition nonblank_lines (text : str) : list str :=
  map strip (filter (fun l => truthy (strip l) = true) (splitlines text)).

(** The two lines of [header]. *)
Definition summary_line : str := py "SUMMARY".
Definition pitch_line : str :=
  py "Results-driven professional with measurable achievements.".

(** The premise of the idempotence property: every line of the text
    starts with the bullet marker and is trimmed (so none is blank). *)
Definition already_bulleted (text : str) : bool :=
  forallb (fun l => startswith l (py "-") && bool_decide (strip l = l)) (splitlines text).

(** The two branches of [analyze_resume] that compute the match
    percentage and the missing skills. *)
Definition match_of `{Unicode} (resume_text job_description : str) : Res (Q * list str) :=
  let resume_skills := _extract_skills resume_text in
  let job_skills := _extract_skills job_description in
  if bool_decide (job_skills = ∅) then
    let resume_tokens : gset str := list_to_set (_normalize resume_text) in
    let job_tokens : gset str := list_to_set (_normalize job_description) in
    let overlap := set_len (resume_tokens ∩ job_tokens) in
    let denom := Z.max 1 (set_len job_tokens) in
    bind (fdiv (fmul 100 (of_int overlap)) (of_int denom)) (fun x =>
    Ok (round1 x, []))
  else
    let overlap := set_len (resume_skills ∩ job_skills) in
    let denom := Z.max 1 (set_len job_skills) in
    bind (fdiv (fmul 100 (of_int overlap)) (of_int denom)) (fun x =>
    Ok (round1 x, sorted_list (job_skills ∖ resume_skills))).

(** The fallback of the specification: the share of the job
    description's normalized tokens, not filtered by the vocabulary, that
    also occur in the resume, as a percentage rounded to one decimal. *)
Definition raw_tokens `{Unicode} (text : str) : gset str :=
  list_to_set (_normalize text).

Definition raw_token_overlap `{Unicode} (resume_text job_description : str) : Res Q :=
  let overlap := set_len (raw_tokens resume_text ∩ raw_tokens job_description) in
  let denom := Z.max 1 (set_len (raw_tokens job_description)) in
  bind (fdiv (fmul 100 (of_int overlap)) (of_int denom)) (fun x => Ok (round1 x)).

(** Unicode scalar values: code points that are not surrogates. *)
Definition is_scalar (c : N) : bool :=
  (c <? 0xD800) || ((0xDFFF <? c) && (c <? 0x110000)).

(** Reading UTF-8 back (RFC 3629): the lead octet tells how many
    continuation octets follow, each of which carries six bits. *)
Fixpoint decode_utf8 (b : bytes) : option str :=
  match b with
  | [] => Some []
  | b0 :: r0 =>
      if b0 <? 0x80 then cons b0 <$> decode_utf8 r0
      else if b0 <? 0xC0 then None
      else if b0 <? 0xE0 then
        match r0 with
        | b1 :: r1 => cons (64 * (b0 - 0xC0) + (b1 - 0x80)) <$> decode_utf8 r1
        | _ => None
        end
      else if b0 <? 0xF0 then
        match r0 with
        | b1 :: b2 :: r2 =>
            cons (4096 * (b0 - 0xE0) + 64 * (b1 - 0x80) + (b2 - 0x80)) <$> decode_utf8 r2
        | _ => None
        end
      else
        match r0 with
        | b1 :: b2 :: b3 :: r3 =>
            cons (262144 * (b0 - 0xF0) + 4096 * (b1 - 0x80) + 64 * (b2 - 0x80) + (b3 - 0x80))
              <$> decode_utf8 r3
        | _ => None
        end
  end.

(** Concrete surroundings on which statements are run: case tables that
    leave text outside ASCII unchanged, and an installation without
    [python-docx] whose PDF library produces an empty document. *)
Definition ascii_tables : Unicode := {| unicode_lower := fun s => s |}.

Definition without_docx : Libraries :=
  {| _DOCX_AVAILABLE := false;
     fpdf_output := fun _ => Ok [];
     docx_save := fun _ => Ok [] |}.

End Spec.

(** ** Vocabulary of the further properties *)

Module Vocabulary.
Import Py Analyzer Float Matcher Exporter Advisor Api Spec.

(** A text that does not start with whitespace, and one that neither
    starts nor ends with it. *)
Definition clean (s : str) : Prop :=
  match s with [] => True | c :: _ => is_space c = false end.

Definition trim (s : str) : Prop := clean s /\ clean (rev s).

(** The characters of a token before merging: lowercase letters,
    digits, "+" and "#". *)
Definition is_piece_char (c : N) : bool :=
  ((97 <=? c) && (c <=? 122)) || ((48 <=? c) && (c <=? 57))
  || (c =? 43) || (c =? 35).

(** A token as the split leaves it: not empty, and without any other
    character, so without a space. *)
Definition piece (t : str) : Prop := t <> [] /\ forallb is_piece_char t = true.

(** A token made by the merge loop: two pieces around one space that
    together are an entry of the vocabulary. *)
Definition merged_pair (t : str) : Prop :=
  exists a b, t = a ++ py " " ++ b /\ piece a /\ piece b /\ t ∈ KNOWN_SKILLS.

(** A text within Latin-1. *)
Definition latin1 (s : str) : Prop := Forall (fun c => c < 256) s.

(** The text arguments of a call on the PDF object. *)
Definition fpdf_text (call : fpdf_call) : list str :=
  match call with
  | set_font family style _ => [family; style]
  | cell _ _ txt _ => [txt]
  | multi_cell _ _ txt => [txt]
  | _ => []
  end.

(** The calls [generate_resume_pdf] makes before asking for the output. *)
Definition pdf_calls (resume_text : str) : list fpdf_call :=
  [ set_auto_page_break true 15; add_page;
    set_font (py "Arial") (py "B") 16;
    cell 0 10 (_to_latin1 (py "Resume")) true;
    set_font (py "Arial") [] 11 ]
  ++ flat_map (fun paragraph => [multi_cell 0 6 paragraph; ln 1])
              (split_blank (_to_latin1 (or_else resume_text (py "(No content provided)")))).

(** A bullet line: starts with the marker, is trimmed, and is one line. *)
Definition bullet (l : str) : Prop :=
  startswith l (py "-") = true /\ trimmed l /\ line l.

(** The themes that the request model of /user/preferences accepts. *)
Definition valid_theme (theme : str) : bool :=
  bool_decide (theme = py "light") || bool_decide (theme = py "dark").

(** The store after a sequence of POSTs to /user/preferences. *)
Definition run_preferences (themes : list str) : gmap (list N) (list N) :=
  foldl (fun prefs theme => fst (post_preferences prefs theme)) initial_preferences themes.

(** The body of a refusal: no data, status 400. *)
Definition refusal (message : str) : JSONResponse :=
  {| success := false; message := message; data := NoData; status_code := 400 |}.

(** The texts that [JSONResponse_init] has to encode. *)
Definition body_texts (body : JSONResponse) : list str :=
  message body :: payload_texts (data body).

(** A text that has a UTF-8 encoding. *)
Definition scalar (s : str) : Prop := forallb is_scalar s = true.

(** Surroundings on which statements about the handlers are run: a PDF
    reader that finds no page, one that finds a single page holding the
    bytes of the file as its text, one whose single page holds a lone
    surrogate, and no text for the exceptions raised without a
    message. *)
Definition blank_pdf : PdfLibrary := {| PdfReader_pages := fun _ => Ok [] |}.
Definition text_pdf : PdfLibrary := {| PdfReader_pages := fun b => Ok [Ok (Some b)] |}.
Definition surrogate_pdf : PdfLibrary :=
  {| PdfReader_pages := fun _ => Ok [Ok (Some [55296])] |}.
Definition no_exn_text : ExnText :=
  {| builtin_exn_text := fun _ => []; builtin_exn_text_ascii := fun _ => eq_refl |}.

End Vocabulary.

(** * Properties *)

(** ** The embedding on sample inputs *)

Module Samples.
Import Py Analyzer Float Matcher Exporter Spec.

Example split_keeps_outer_pieces :
  WORD_SPLIT_RE_split (py " a  b ") = [[]; py "a"; py "b"; []]
  /\ WORD_SPLIT_RE_split [] = [[]].
Proof. split; reflexivity. Qed.

Example splitlines_crlf :
  splitlines [97; 13; 10; 13; 98; 10] = [[97]; []; [98]]
  /\ splitlines [10] = [[]] /\ splitlines [] = [].
Proof. repeat split; reflexivity. Qed.

Example split_blank_leftmost : split_blank [97; 10; 10; 10; 98] = [[97]; [10; 98]].
Proof. reflexivity. Qed.

Example normalize_merges_pairs `{Unicode} :
  _normalize (py "GitHub Actions, unit  testing and C++/C#")
  = [py "github actions"; py "unit testing"; py "and"; py "c++"; py "c#"].
Proof. vm_compute. reflexivity. Qed.

Example fl_one_tenth : fl (1 # 10) = (3602879701896397 # 36028797018963968)%Q.
Proof. vm_compute. reflexivity. Qed.

(** [round(0.35, 1)] is 0.3 because the float 0.35 is below the tie;
    [round(0.25, 1)] is 0.2 by the tie rule. *)
Example round1_near_ties :
  round1 (fl (35 # 100)) = fl (3 # 10) /\ round1 (fl (25 # 100)) = fl (2 # 10).
Proof. split; vm_compute; reflexivity. Qed.

Example analyze_resume_empty `{Unicode} :
  analyze_resume [] []
  = Ok {| match_percent := 0; missing_skills := [];
          suggestions := [msg_quantify]; ats_score := 0 |}.
Proof. vm_compute. reflexivity. Qed.

End Samples.

(** ** Facts about the float model *)

Module FloatFacts.
Import Py Float.
#[local] Open Scope Z_scope.
#[local] Open Scope Q_scope.

Lemma pow2_pos e : 0 < pow2 e.
Proof. apply Qpower_0_lt. reflexivity. Qed.

Lemma pow2_add a b : pow2 (a + b) == pow2 a * pow2 b.
Proof. apply Qpower_plus. discriminate. Qed.

Lemma pow2_le a b : (a <= b)%Z -> pow2 a <= pow2 b.
Proof. intros. apply Qpower_le_compat_l; [done | discriminate]. Qed.

Lemma pow2_lt a b : (a < b)%Z -> pow2 a < pow2 b.
Proof. intros. apply Qpower_lt_compat_l; [done | reflexivity]. Qed.

Lemma pow2_lt_inv a b : pow2 a < pow2 b -> (a < b)%Z.
Proof. intros. eapply Qpower_lt_compat_l_inv; [eassumption | reflexivity]. Qed.

Lemma pow2_inject e : (0 <= e)%Z -> pow2 e == inject_Z (2 ^ e).
Proof. intros. unfold pow2. rewrite Zpower_Qpower by done. reflexivity. Qed.

Lemma pow2_sub a b : pow2 (a - b) == pow2 a / pow2 b.
Proof.
  unfold Z.sub. rewrite pow2_add. unfold pow2 at 2. rewrite Qpower_opp. reflexivity.
Qed.

(** *** Rounding to the nearest integer *)

Ltac qcompare_hyps :=
  repeat match goal with
    | H : Qcompare _ _ = Eq |- _ => apply Qeq_alt in H
    | H : Qcompare _ _ = Lt |- _ => apply Qlt_alt in H
    | H : Qcompare _ _ = Gt |- _ => apply Qgt_alt in H
    end.

Lemma rhe_cases q :
  (rhe q = Qfloor q /\ q - inject_Z (Qfloor q) <= 1 # 2) \/
  (rhe q = (Qfloor q + 1)%Z /\ 1 # 2 <= q - inject_Z (Qfloor q)).
Proof.
  unfold rhe.
  destruct (Qcompare (q - inject_Z (Qfloor q)) (1 # 2)) eqn:E.
  - apply Qeq_alt in E. destruct (Z.even (Qfloor q)); [left | right]; (split; [reflexivity | lra]).
  - apply Qlt_alt in E. left; split; [done | lra].
  - apply Qgt_alt in E. right; split; [done | lra].
Qed.

Lemma floor_bounds q : inject_Z (Qfloor q) <= q /\ q < inject_Z (Qfloor q) + 1.
Proof.
  split; [apply Qfloor_le |].
  pose proof (Qlt_floor q) as H. rewrite inject_Z_plus in H. exact H.
Qed.

Lemma rhe_near q :
  inject_Z (rhe q) - q <= 1 # 2 /\ q - inject_Z (rhe q) <= 1 # 2.
Proof.
  pose proof (floor_bounds q) as [H1 H2].
  destruct (rhe_cases q) as [[-> H] | [-> H]];
    rewrite ?inject_Z_plus; change (inject_Z 1) with 1; split; lra.
Qed.

Lemma rhe_proper q q' : q == q' -> rhe q = rhe q'.
Proof.
  intros E. unfold rhe. rewrite (Qfloor_comp _ _ E).
  assert (q - inject_Z (Qfloor q') == q' - inject_Z (Qfloor q')) as -> by (rewrite E; reflexivity).
  reflexivity.
Qed.

Lemma rhe_Z n : rhe (inject_Z n) = n.
Proof.
  unfold rhe. rewrite Qfloor_Z.
  assert (inject_Z n - inject_Z n == 0) as -> by ring. reflexivity.
Qed.

Lemma rhe_ge_Z q n : inject_Z n <= q -> (n <= rhe q)%Z.
Proof.
  intros H. apply Qfloor_resp_le in H. rewrite Qfloor_Z in H.
  destruct (rhe_cases q) as [[-> _] | [-> _]]; lia.
Qed.

Lemma rhe_le_Z q n : q <= inject_Z n -> (rhe q <= n)%Z.
Proof.
  intros H. pose proof (floor_bounds q) as [H1 H2].
  assert (Qfloor q <= n)%Z as Hf by (rewrite Zle_Qle; lra).
  destruct (rhe_cases q) as [[-> _] | [-> Hh]]; [done |].
  destruct (Z.eq_dec (Qfloor q) n) as [E | Hne]; [subst n; exfalso; lra | lia].
Qed.

Lemma rhe_mono x y : x <= y -> (rhe x <= rhe y)%Z.
Proof.
  intros H. pose proof (Qfloor_resp_le _ _ H) as Hf.
  destruct (Z.eq_dec (Qfloor x) (Qfloor y)) as [E | Hne].
  - unfold rhe. rewrite E.
    destruct (Qcompare (x - inject_Z (Qfloor y)) (1 # 2)) eqn:Ex;
      destruct (Qcompare (y - inject_Z (Qfloor y)) (1 # 2)) eqn:Ey;
      try (destruct (Z.even (Qfloor y))); try lia;
      exfalso; qcompare_hyps; lra.
  - assert (rhe x <= Qfloor x + 1)%Z by (destruct (rhe_cases x) as [[-> _] | [-> _]]; lia).
    assert (Qfloor y <= rhe y)%Z by (destruct (rhe_cases y) as [[-> _] | [-> _]]; lia).
    lia.
Qed.

Lemma rhe_unique q n :
  q - inject_Z n < 1 # 2 -> inject_Z n - q < 1 # 2 -> rhe q = n.
Proof.
  intros H1 H2. pose proof (rhe_near q) as [H3 H4].
  assert (rhe q + - n < 1)%Z as Ha.
  { rewrite Zlt_Qlt, inject_Z_plus, inject_Z_opp. change (inject_Z 1) with 1. lra. }
  assert (n + - rhe q < 1)%Z as Hb.
  { rewrite Zlt_Qlt, inject_Z_plus, inject_Z_opp. change (inject_Z 1) with 1. lra. }
  lia.
Qed.

(** *** Binary exponents *)

Lemma pow2_succ e : pow2 (e + 1) == 2 * pow2 e.
Proof. rewrite pow2_add. change (pow2 1) with 2. ring. Qed.

Lemma pow2_pred e : 2 * pow2 (e - 1) == pow2 e.
Proof. rewrite <- pow2_succ. replace (e - 1 + 1)%Z with e by lia. reflexivity. Qed.

Lemma ilog2_aux (x D N A B P : Q) :
  x * D == N -> B <= D -> D < 2 * B -> 0 < B ->
  A <= N -> N < 2 * A -> 0 < A -> P * B == A -> 0 < P ->
  (P <= x -> x < 2 * P) /\ (x < P -> P <= 2 * x).
Proof. intros. split; intros; nra. Qed.

Lemma ilog2_spec x : 0 < x -> pow2 (ilog2 x) <= x /\ x < pow2 (ilog2 x + 1).
Proof.
  intros Hx. unfold ilog2.
  set (n := Qnum x). set (d := Qden x).
  assert (0 < n)%Z as Hn by (unfold Qlt in Hx; cbn in Hx; lia).
  set (k := (Z.log2 n - Z.log2 (Z.pos d))%Z).
  pose proof (Z.log2_spec n Hn) as [Hn1 Hn2].
  pose proof (Z.log2_spec (Z.pos d) ltac:(lia)) as [Hd1 Hd2].
  pose proof (Z.log2_nonneg n) as Hln.
  pose proof (Z.log2_nonneg (Z.pos d)) as Hld.
  assert (x * inject_Z (Z.pos d) == inject_Z n) as Hq.
  { destruct x as [a b]. unfold Qeq. cbn. subst n d. cbn. lia. }
  rewrite Zle_Qle, <- pow2_inject in Hn1, Hd1 by lia.
  rewrite Zlt_Qlt in Hn2, Hd2.
  rewrite <- !pow2_inject in Hn2, Hd2 by lia.
  assert (pow2 k * pow2 (Z.log2 (Z.pos d)) == pow2 (Z.log2 n)) as Hk.
  { rewrite <- pow2_add. subst k.
    replace (Z.log2 n - Z.log2 (Z.pos d) + Z.log2 (Z.pos d))%Z with (Z.log2 n) by lia.
    reflexivity. }
  rewrite <- !Z.add_1_r, !pow2_succ in Hn2, Hd2.
  destruct (ilog2_aux x _ _ _ _ _ Hq Hd1 Hd2 (pow2_pos _) Hn1 Hn2 (pow2_pos _) Hk (pow2_pos _))
    as [Hle Hlt].
  destruct (Qle_bool (pow2 k) x) eqn:E.
  - apply Qle_bool_iff in E. split; [done |]. rewrite pow2_succ. auto.
  - assert (x < pow2 k) as Hc.
    { apply Qnot_le_lt. intros Hc. apply Qle_bool_iff in Hc. congruence. }
    replace (k - 1 + 1)%Z with k by lia. split; [| done].
    pose proof (pow2_pred k). specialize (Hlt Hc). lra.
Qed.

Lemma ilog2_unique x k : pow2 k <= x -> x < pow2 (k + 1) -> ilog2 x = k.
Proof.
  intros H1 H2.
  assert (0 < x) as Hx by (pose proof (pow2_pos k); lra).
  destruct (ilog2_spec x Hx) as [H3 H4].
  assert (ilog2 x < k + 1)%Z by (apply pow2_lt_inv; lra).
  assert (k < ilog2 x + 1)%Z by (apply pow2_lt_inv; lra).
  lia.
Qed.

Lemma expo_ge_emin x : (emin <= expo x)%Z.
Proof. unfold expo. lia. Qed.

(** For [0 < x] the significand [x / 2 ^ expo x] lies below [2 ^ 53], and
    at or above [2 ^ 52] unless [x] is subnormal. *)
Lemma expo_spec x :
  0 < x ->
  x < pow2 (expo x + 53) /\ (pow2 (expo x + 52) <= x \/ expo x = emin).
Proof.
  intros Hx. unfold expo.
  assert (ilog2 (Qabs x) = ilog2 x) as ->.
  { destruct (ilog2_spec x Hx). apply ilog2_unique; rewrite Qabs_pos; lra. }
  destruct (ilog2_spec x Hx) as [H1 H2]. split.
  - eapply Qlt_le_trans; [exact H2 |]. apply pow2_le. lia.
  - destruct (Z.max_spec (ilog2 x - 52) emin) as [[? ->] | [? ->]]; [by right |].
    left. replace (ilog2 x - 52 + 52)%Z with (ilog2 x) by lia. done.
Qed.

(** *** Rounding to binary64 *)

Lemma fl_eq x : fl x == inject_Z (rhe (x / pow2 (expo x))) * pow2 (expo x).
Proof. apply Qred_correct. Qed.

Lemma div_pow2 x e : x / pow2 e * pow2 e == x.
Proof. pose proof (pow2_pos e). field. lra. Qed.

Lemma fl_grid_le x n :
  x <= inject_Z n * pow2 (expo x) -> fl x <= inject_Z n * pow2 (expo x).
Proof.
  intros H. rewrite fl_eq. pose proof (pow2_pos (expo x)) as Hp.
  apply Qmult_le_compat_r; [| lra]. rewrite <- Zle_Qle. apply rhe_le_Z.
  apply Qle_shift_div_r; done.
Qed.

Lemma fl_grid_ge x n :
  inject_Z n * pow2 (expo x) <= x -> inject_Z n * pow2 (expo x) <= fl x.
Proof.
  intros H. rewrite fl_eq. pose proof (pow2_pos (expo x)) as Hp.
  apply Qmult_le_compat_r; [| lra]. rewrite <- Zle_Qle. apply rhe_ge_Z.
  apply Qle_shift_div_l; done.
Qed.

Lemma fl_nonneg x : 0 <= x -> 0 <= fl x.
Proof.
  intros H. pose proof (fl_grid_ge x 0) as G.
  assert (inject_Z 0 * pow2 (expo x) == 0) as E by ring.
  rewrite E in G. auto.
Qed.

Lemma fl_nonpos x : x <= 0 -> fl x <= 0.
Proof.
  intros H. pose proof (fl_grid_le x 0) as G.
  assert (inject_Z 0 * pow2 (expo x) == 0) as E by ring.
  rewrite E in G. auto.
Qed.

Lemma fl_mono_pos x y : 0 < x -> x <= y -> fl x <= fl y.
Proof.
  intros Hx Hxy. assert (0 < y) as Hy by lra.
  destruct (expo_spec x Hx) as [Hx1 Hx2], (expo_spec y Hy) as [Hy1 Hy2].
  pose proof (expo_ge_emin x). pose proof (expo_ge_emin y).
  destruct (Z.lt_trichotomy (expo x) (expo y)) as [Hlt | [Heq | Hgt]].
  - (* the binade boundary [2 ^ (expo y + 52)] separates the two values *)
    destruct Hy2 as [Hy2 | ?]; [| lia].
    set (b := pow2 (expo y + 52)) in *.
    assert (b == inject_Z (2 ^ (expo y + 52 - expo x)) * pow2 (expo x)) as Eb1.
    { rewrite <- pow2_inject, <- pow2_add by lia. subst b.
      replace (expo y + 52 - expo x + expo x)%Z with (expo y + 52)%Z by lia. reflexivity. }
    assert (b == inject_Z (2 ^ 52) * pow2 (expo y)) as Eb2.
    { rewrite <- pow2_inject, <- pow2_add by lia. subst b.
      replace (52 + expo y)%Z with (expo y + 52)%Z by lia. reflexivity. }
    assert (x <= b).
    { apply Qlt_le_weak. eapply Qlt_le_trans; [exact Hx1 |]. apply pow2_le. lia. }
    apply Qle_trans with b.
    + rewrite Eb1. apply fl_grid_le. rewrite <- Eb1. done.
    + rewrite Eb2. apply fl_grid_ge. rewrite <- Eb2. done.
  - rewrite !fl_eq, Heq. pose proof (pow2_pos (expo y)) as Hp.
    apply Qmult_le_compat_r; [| lra]. rewrite <- Zle_Qle. apply rhe_mono.
    apply Qmult_le_compat_r; [done |]. apply Qlt_le_weak, Qinv_lt_0_compat, Hp.
  - exfalso. destruct Hx2 as [Hx2 | ?]; [| lia].
    assert (pow2 (expo y + 53) <= pow2 (expo x + 52)) by (apply pow2_le; lia).
    lra.
Qed.

Lemma fl_mono x y : 0 <= x -> x <= y -> fl x <= fl y.
Proof.
  intros Hx Hxy. destruct (Qlt_le_dec 0 x) as [Hpos | Hneg].
  - by apply fl_mono_pos.
  - apply Qle_trans with 0; [apply fl_nonpos; done | apply fl_nonneg; lra].
Qed.

(** Values with a significand of at most 53 bits are left unchanged. *)
Lemma fl_fix_lt x m e :
  0 < x -> x == inject_Z m * pow2 e -> (m < 2 ^ 53)%Z -> (emin <= e)%Z -> fl x == x.
Proof.
  intros Hx E Hm He. destruct (expo_spec x Hx) as [Hx1 Hx2].
  assert (expo x <= e)%Z as Hle.
  { destruct Hx2 as [Hx2 | ->]; [| done].
    assert (x < pow2 (e + 53)) as Hu.
    { rewrite E, Z.add_comm, pow2_add, (pow2_inject 53) by lia.
      apply Qmult_lt_compat_r; [apply pow2_pos |]. rewrite <- Zlt_Qlt. done. }
    assert (expo x + 52 < e + 53)%Z by (apply pow2_lt_inv; lra). lia. }
  rewrite fl_eq.
  assert (x / pow2 (expo x) == inject_Z (m * 2 ^ (e - expo x))) as Hd.
  { rewrite inject_Z_mult, <- pow2_inject, pow2_sub by lia.
    unfold Qdiv. rewrite Qmult_assoc, <- E. reflexivity. }
  rewrite (rhe_proper _ _ Hd), rhe_Z, inject_Z_mult, <- pow2_inject by lia.
  rewrite <- Qmult_assoc, <- pow2_add.
  replace (e - expo x + expo x)%Z with e by lia. symmetry. exact E.
Qed.

Lemma fl_fix x m e :
  0 <= x -> x == inject_Z m * pow2 e -> (m <= 2 ^ 53)%Z -> (emin <= e)%Z -> fl x == x.
Proof.
  intros Hx E Hm He. destruct (Qlt_le_dec 0 x) as [Hpos | Hneg].
  - destruct (Z.eq_dec m (2 ^ 53)%Z) as [Hm53 | Hne].
    + subst m. apply (fl_fix_lt x (2 ^ 52)%Z (e + 1)%Z); [done | | done | lia].
      rewrite pow2_add. change (pow2 1) with 2.
      assert (inject_Z (2 ^ 53) == inject_Z (2 ^ 52) * 2) as E2 by reflexivity.
      rewrite E2 in E. rewrite E. ring.
    + apply (fl_fix_lt x m e); [done | done | lia | done].
  - assert (x == 0) as E0 by lra. rewrite fl_eq.
    assert (x / pow2 (expo x) == inject_Z 0) as Hd.
    { unfold Qdiv. generalize (/ pow2 (expo x)). intros. rewrite E0. ring. }
    rewrite (rhe_proper _ _ Hd), rhe_Z.
    transitivity 0; [ring | symmetry; exact E0].
Qed.

Lemma fl_significand x :
  0 <= x -> (0 <= rhe (x / pow2 (expo x)) <= 2 ^ 53)%Z.
Proof.
  intros Hx. pose proof (pow2_pos (expo x)) as Hp. split.
  - apply rhe_ge_Z. apply Qle_shift_div_l; [done |]. change (inject_Z 0) with 0. lra.
  - apply rhe_le_Z. apply Qle_shift_div_r; [done |].
    destruct (Qlt_le_dec 0 x) as [Hpos | Hneg].
    + destruct (expo_spec x Hpos) as [Hx1 _].
      rewrite <- pow2_inject, <- pow2_add by lia.
      rewrite Z.add_comm. lra.
    + assert (0 <= inject_Z (2 ^ 53) * pow2 (expo x)); [| lra].
      apply Qmult_le_0_compat; [done | lra].
Qed.

Lemma fl_idem x : 0 <= x -> fl (fl x) == fl x.
Proof.
  intros Hx. destruct (fl_significand x Hx) as [H1 H2].
  apply (fl_fix _ (rhe (x / pow2 (expo x))) (expo x)).
  - by apply fl_nonneg.
  - apply fl_eq.
  - done.
  - apply expo_ge_emin.
Qed.

(** Relative error of one rounding in the normal range. *)
Lemma fl_error x :
  pow2 (emin + 52) <= x ->
  x * (1 - pow2 (-53)) <= fl x /\ fl x <= x * (1 + pow2 (-53)).
Proof.
  intros Hx. pose proof (pow2_pos (emin + 52)).
  assert (0 < x) as Hpos by lra.
  destruct (expo_spec x Hpos) as [_ Hn].
  assert (pow2 (expo x + 52) <= x) as Hb.
  { destruct Hn as [? | ->]; done. }
  pose proof (rhe_near (x / pow2 (expo x))) as [N1 N2].
  pose proof (div_pow2 x (expo x)) as Hd. pose proof (fl_eq x) as Hf.
  assert (pow2 (expo x + 52) * pow2 (-53) * 2 == pow2 (expo x)) as Hs.
  { rewrite <- pow2_add, Qmult_comm, <- pow2_succ.
    replace (expo x + 52 + -53 + 1)%Z with (expo x) by lia. reflexivity. }
  pose proof (pow2_pos (expo x)). pose proof (pow2_pos (-53)).
  pose proof (pow2_pos (expo x + 52)).
  generalize dependent (inject_Z (rhe (x / pow2 (expo x)))).
  generalize dependent (x / pow2 (expo x)).
  generalize dependent (fl x). generalize dependent (pow2 (expo x + 52)).
  generalize dependent (pow2 (expo x)). generalize dependent (pow2 (-53)).
  intros. split; nra.
Qed.

(** *** The operations used by [analyze_resume] *)

Lemma fl_1 : fl 1 = 1.
Proof. vm_compute. reflexivity. Qed.

Lemma fl_100 : fl 100 = 100.
Proof. vm_compute. reflexivity. Qed.

Lemma of_int_nonneg n : (0 <= n)%Z -> 0 <= of_int n.
Proof. intros. apply fl_nonneg. rewrite <- (Zle_Qle 0). done. Qed.

Lemma of_int_mono a b : (0 <= a <= b)%Z -> of_int a <= of_int b.
Proof.
  intros [Ha Hab]. apply fl_mono.
  - rewrite <- (Zle_Qle 0). done.
  - rewrite <- Zle_Qle. done.
Qed.

Lemma of_int_ge_1 n : (1 <= n)%Z -> 1 <= of_int n.
Proof.
  intros H. rewrite <- fl_1 at 1. apply fl_mono; [lra |].
  rewrite <- (Zle_Qle 1). done.
Qed.

(** [100.0 * overlap / denom] never raises and lies between 0 and
    [100 + 2 ^ -46]: the product [100.0 * denom] may have been rounded
    up, by less than one part in [2 ^ 53]. *)
Lemma percent_bounds (overlap denom : Z) :
  (0 <= overlap <= denom)%Z -> (1 <= denom)%Z ->
  exists x, fdiv (fmul 100 (of_int overlap)) (of_int denom) = Ok x
            /\ 0 <= x /\ x <= 100 + pow2 (-46).
Proof.
  intros Ho Hd. unfold fdiv, fmul.
  pose proof (of_int_ge_1 denom Hd) as Hb.
  pose proof (of_int_nonneg overlap ltac:(lia)) as Ha.
  pose proof (of_int_mono overlap denom ltac:(lia)) as Hab.
  set (a := of_int overlap) in *. set (b := of_int denom) in *.
  destruct (Qeq_bool b 0) eqn:Eb.
  { apply Qeq_bool_iff in Eb. exfalso. lra. }
  eexists. split; [reflexivity |].
  assert (fl (100 * a) <= 100 * b * (1 + pow2 (-53))) as Hp.
  { apply Qle_trans with (fl (100 * b)); [apply fl_mono; lra |].
    apply fl_error. apply Qle_trans with 1; [| lra].
    change 1 with (pow2 0). apply pow2_le. done. }
  pose proof (fl_nonneg (100 * a) ltac:(lra)) as Hp0.
  assert (0 <= fl (100 * a) / b) as Hq0.
  { apply Qle_shift_div_l; lra. }
  split; [by apply fl_nonneg |].
  assert (fl (100 + pow2 (-46)) = 100 + pow2 (-46)) as <- by (vm_compute; reflexivity).
  apply fl_mono; [done |].
  apply Qle_shift_div_r; [lra |].
  eapply Qle_trans; [exact Hp |].
  assert (100 * (1 + pow2 (-53)) <= 100 + pow2 (-46)) as Hc by (vm_compute; discriminate).
  nra.
Qed.

Lemma decimal_bounds (k : Z) :
  (0 <= k <= 1000)%Z -> 0 <= fl (inject_Z k / 10) /\ fl (inject_Z k / 10) <= 100.
Proof.
  intros [H0 H1]. rewrite (Zle_Qle 0) in H0. rewrite Zle_Qle in H1.
  change (inject_Z 0) with 0 in H0. change (inject_Z 1000) with 1000 in H1.
  assert (0 <= inject_Z k / 10) by (apply Qle_shift_div_l; lra).
  split; [by apply fl_nonneg |].
  rewrite <- fl_100. apply fl_mono; [done |]. apply Qle_shift_div_r; lra.
Qed.

(** [round(x, 1)] of a percentage is the float nearest to [k / 10] for an
    integer [k] between 0 and 1000. *)
Lemma round1_percent x :
  0 <= x -> x <= 100 + pow2 (-46) ->
  (0 <= rhe (x * 10) <= 1000)%Z.
Proof.
  intros H0 H1. split.
  - apply rhe_ge_Z. change (inject_Z 0) with 0. lra.
  - assert (rhe ((100 + pow2 (-46)) * 10) = 1000%Z) as <- by (vm_compute; reflexivity).
    apply rhe_mono. lra.
Qed.

Lemma round1_mono x y : 0 <= x -> x <= y -> round1 x <= round1 y.
Proof.
  intros H0 H. unfold round1.
  assert (0 <= rhe (x * 10))%Z as Hk.
  { apply rhe_ge_Z. change (inject_Z 0) with 0. lra. }
  assert (rhe (x * 10) <= rhe (y * 10))%Z as Hm by (apply rhe_mono; lra).
  rewrite (Zle_Qle 0) in Hk. rewrite Zle_Qle in Hm. change (inject_Z 0) with 0 in Hk.
  apply fl_mono.
  - apply Qle_shift_div_l; lra.
  - apply Qmult_le_compat_r; [done | discriminate].
Qed.

(** Rounding a value that already is such a float gives it back. *)
Lemma round1_decimal (k : Z) :
  (0 <= k <= 1000)%Z -> round1 (fl (inject_Z k / 10)) = fl (inject_Z k / 10).
Proof.
  intros [H0 H1]. unfold round1. f_equal. f_equal. f_equal.
  destruct (Z.eq_dec k 0%Z) as [E0 | Hne]; [subst k; vm_compute; reflexivity |].
  assert (1 <= k)%Z as Hk by lia.
  rewrite (Zle_Qle 1) in Hk. rewrite Zle_Qle in H1.
  change (inject_Z 1) with 1 in Hk. change (inject_Z 1000) with 1000 in H1.
  assert (pow2 (emin + 52) <= inject_Z k / 10) as Hn.
  { apply Qle_trans with (pow2 (-4)); [apply pow2_le; done |].
    apply Qle_shift_div_l; [lra |].
    assert (pow2 (-4) * 10 <= 1) by (vm_compute; discriminate). lra. }
  destruct (fl_error _ Hn) as [E1 E2].
  assert (inject_Z k / 10 * 10 == inject_Z k) as Ek by (field; discriminate).
  assert (1000 * pow2 (-53) < 1 # 2) as Hs by (vm_compute; reflexivity).
  pose proof (pow2_pos (-53)).
  generalize dependent (inject_Z k / 10). intros q. intros.
  apply rhe_unique; nra.
Qed.

Lemma py_min_spec a b :
  (b < a /\ py_min a b = b) \/ (a <= b /\ py_min a b = a).
Proof.
  unfold py_min. destruct (Qcompare b a) eqn:E; qcompare_hyps; [right | left | right];
    split; try reflexivity; lra.
Qed.

Lemma py_max_spec a b :
  (a < b /\ py_max a b = b) \/ (b <= a /\ py_max a b = a).
Proof.
  unfold py_max. destruct (Qcompare b a) eqn:E; qcompare_hyps; [right | right | left];
    split; try reflexivity; lra.
Qed.

(** The ATS score computed from a match percentage [fl (k / 10)] and a
    number [m] of missing skills does not exceed the percentage. *)
Lemma ats_le_percent (k m : Z) :
  (0 <= k <= 1000)%Z -> (0 <= m)%Z ->
  let mp := fl (inject_Z k / 10) in
  let penalty := py_min 30 (fmul 5 (of_int m)) in
  round1 (py_max 0 (py_min 100 (fsub mp penalty))) <= mp.
Proof.
  intros Hk Hm mp penalty.
  destruct (decimal_bounds k Hk) as [Hmp0 Hmp1]. fold mp in Hmp0, Hmp1.
  assert (0 <= inject_Z k / 10) as Hq.
  { apply Qle_shift_div_l; [lra |]. destruct Hk as [Hk _].
    rewrite (Zle_Qle 0) in Hk. change (inject_Z 0) with 0 in Hk. lra. }
  assert (0 <= penalty) as Hpen.
  { subst penalty. unfold fmul.
    pose proof (of_int_nonneg m Hm).
    pose proof (fl_nonneg (5 * of_int m) ltac:(lra)).
    destruct (py_min_spec 30 (fl (5 * of_int m))) as [[_ ->] | [_ ->]]; lra. }
  assert (fsub mp penalty <= mp) as Hy.
  { unfold fsub. destruct (Qlt_le_dec 0 (mp - penalty)) as [Hpos | Hneg].
    - pose proof (fl_idem _ Hq) as Hi. fold mp in Hi.
      apply Qle_trans with (fl mp); [apply fl_mono; lra | lra].
    - pose proof (fl_nonpos _ Hneg). lra. }
  set (y := fsub mp penalty) in *.
  assert (0 <= py_max 0 (py_min 100 y) /\ py_max 0 (py_min 100 y) <= mp) as [Hc0 Hc1].
  { destruct (py_min_spec 100 y) as [[? ->] | [? ->]];
      [destruct (py_max_spec 0 y) as [[? ->] | [? ->]]
      | destruct (py_max_spec 0 100) as [[? ->] | [? ->]]]; lra. }
  apply Qle_trans with (round1 mp); [by apply round1_mono |].
  subst mp. rewrite (round1_decimal k Hk). apply Qle_refl.
Qed.

End FloatFacts.

(** Turns boolean tests on code points into arithmetic facts. *)
Ltac nbool :=
  repeat match goal with
    | H : (_ || _)%bool = true |- _ => apply orb_true_iff in H; destruct H
    | H : (_ && _)%bool = true |- _ => apply andb_true_iff in H; destruct H
    | H : (_ && _)%bool = false |- _ => apply andb_false_iff in H; destruct H
    | H : (_ || _)%bool = false |- _ => apply orb_false_iff in H; destruct H
    | H : (_ <=? _) = true |- _ => apply N.leb_le in H
    | H : (_ <=? _) = false |- _ => apply N.leb_gt in H
    | H : (_ <? _) = true |- _ => apply N.ltb_lt in H
    | H : (_ <? _) = false |- _ => apply N.ltb_ge in H
    | H : (_ =? _) = true |- _ => apply N.eqb_eq in H
    | H : (_ =? _) = false |- _ => apply N.eqb_neq in H
    end.

(** ** Python values *)

Module PyFacts.
Import Py.

Lemma or_else_nil s : or_else s [] = s.
Proof. by destruct s. Qed.

(** Induction over a list two elements at a time, as the scanners that
    look one character ahead recurse. *)
Lemma list_ind2 {A} (P : list A -> Prop) :
  P [] -> (forall x, P [x]) ->
  (forall x y l, P l -> P (y :: l) -> P (x :: y :: l)) ->
  forall l, P l.
Proof.
  intros H0 H1 H2 l. enough (P l /\ forall x, P (x :: l)) by tauto.
  induction l as [| y l [IH1 IH2]]; split; auto.
Qed.

End PyFacts.

(** ** The tokenizer *)

Module AnalyzerFacts.
Import Py Analyzer Spec.

Lemma merge_pairs_cons current nxt rest :
  merge_pairs (current :: nxt :: rest) =
    if truthy nxt && bool_decide (current ++ py " " ++ nxt ∈ KNOWN_SKILLS)
    then (current ++ py " " ++ nxt) :: merge_pairs rest
    else current :: merge_pairs (nxt :: rest).
Proof. reflexivity. Qed.

Lemma split_from_word in_run cur text :
  word cur -> Forall word (split_from in_run cur text).
Proof.
  revert in_run cur. induction text as [| c rest IH]; intros in_run cur Hcur; cbn.
  - constructor; [| constructor]. by apply Forall_rev.
  - destruct (is_word_char c) eqn:Ec.
    + apply IH. by constructor.
    + destruct in_run.
      * apply IH. constructor.
      * constructor; [by apply Forall_rev | apply IH; constructor].
Qed.

Lemma lstrip_suffix s : exists p, s = p ++ lstrip s.
Proof.
  induction s as [| c s [p IH]]; [by exists [] |]. cbn.
  destruct (is_space c); [| by exists []].
  exists (c :: p). cbn. by rewrite <- IH.
Qed.

Lemma lstrip_Forall (P : N -> Prop) s : Forall P s -> Forall P (lstrip s).
Proof.
  intros Hs. destruct (lstrip_suffix s) as [p E]. rewrite E in Hs.
  by apply Forall_app in Hs as [_ ?].
Qed.

Lemma strip_Forall (P : N -> Prop) s : Forall P s -> Forall P (strip s).
Proof.
  intros Hs. unfold strip, rstrip.
  apply Forall_rev, lstrip_Forall, Forall_rev, lstrip_Forall, Hs.
Qed.

Lemma word_char_ascii c : is_word_char c = true -> is_ascii c = true.
Proof. unfold is_word_char, is_ascii. intros Hc. apply N.ltb_lt. nbool; lia. Qed.

Lemma word_char_lower c : is_word_char c = true -> ascii_lower c <> 47.
Proof.
  unfold is_word_char, ascii_lower. intros Hc.
  destruct ((65 <=? c) && (c <=? 90)) eqn:E; nbool; lia.
Qed.

Section WithUnicode.
Context `{Unicode}.

Lemma lower_word t : word t -> lower t = map ascii_lower t.
Proof.
  intros Ht. unfold lower.
  assert (forallb is_ascii t = true) as ->; [| done].
  apply forallb_forall. intros c Hc. apply word_char_ascii.
  unfold word in Ht. rewrite Forall_forall in Ht. apply Ht. by apply list_elem_of_In.
Qed.

Lemma tokenize_plain text : Forall plain (tokenize text).
Proof.
  unfold tokenize. apply Forall_map, Forall_forall.
  intros t [_ Ht]%list_elem_of_filter.
  pose proof (split_from_word false [] text ltac:(constructor)) as Hw.
  rewrite Forall_forall in Hw. specialize (Hw t Ht).
  rewrite lower_word by by apply strip_Forall.
  apply Forall_map. eapply Forall_impl; [apply strip_Forall, Hw |].
  intros c Hc. cbn. by apply word_char_lower.
Qed.

(** The loop terminates within its fuel and computes [merge_pairs]. *)
Lemma merge_loop_spec fuel : forall tokens i merged,
  (length tokens - i <= fuel)%nat ->
  merge_loop fuel tokens i merged = merged ++ merge_pairs (drop i tokens).
Proof.
  induction fuel as [| fuel IH]; intros tokens i merged Hfuel; cbn [merge_loop].
  - rewrite drop_ge by lia. by rewrite app_nil_r.
  - destruct (tokens !! i) as [current |] eqn:Ei.
    2: { apply lookup_ge_None in Ei. rewrite drop_ge by lia. by rewrite app_nil_r. }
    pose proof (lookup_lt_Some _ _ _ Ei) as Hi.
    rewrite (drop_S _ _ _ Ei).
    destruct (tokens !! (i + 1)%nat) as [nxt |] eqn:En.
    + rewrite Nat.add_1_r in En. rewrite (drop_S _ _ _ En), merge_pairs_cons.
      destruct (truthy nxt && _).
      * rewrite IH by lia. rewrite <- app_assoc.
        by replace (i + 2)%nat with (S (S i)) by lia.
      * rewrite IH by lia. rewrite <- app_assoc, Nat.add_1_r.
        by rewrite (drop_S _ _ _ En).
    + rewrite IH by lia. rewrite <- app_assoc.
      apply lookup_ge_None in En. rewrite Nat.add_1_r. by rewrite !drop_ge by lia.
Qed.

Lemma _normalize_merge_pairs text : _normalize text = merge_pairs (tokenize text).
Proof. unfold _normalize. by rewrite merge_loop_spec by lia. Qed.

Lemma merge_pairs_plain tokens : Forall plain tokens -> Forall plain (merge_pairs tokens).
Proof.
  assert (forall n tokens, (length tokens <= n)%nat ->
            Forall plain tokens -> Forall plain (merge_pairs tokens)) as Hn.
  { clear tokens. induction n as [| n IH]; intros [| current [| nxt rest]] Hlen Hp;
      cbn [length] in Hlen; try lia; try done.
    rewrite merge_pairs_cons.
    apply Forall_cons in Hp as [Hc Hp]. pose proof Hp as Hp'.
    apply Forall_cons in Hp' as [Hx Hr].
    destruct (truthy nxt && _).
    - constructor; [| apply IH; [lia | done]].
      apply Forall_app; split; [done |]. apply Forall_app; split; [| done].
      change (py " ") with [32]. by repeat constructor.
    - constructor; [done |]. apply IH; [cbn [length]; lia | done]. }
  eauto.
Qed.

Lemma _normalize_plain text : Forall plain (_normalize text).
Proof. rewrite _normalize_merge_pairs. apply merge_pairs_plain, tokenize_plain. Qed.

(** The extracted skills are normalized tokens that are in the
    vocabulary. *)
Lemma _extract_skills_spec text (x : str) :
  x ∈ _extract_skills text <-> x ∈ _normalize text /\ x ∈ KNOWN_SKILLS.
Proof.
  unfold _extract_skills. generalize (_normalize text). generalize KNOWN_SKILLS.
  intros known tokens.
  assert (forall acc : gset str,
            x ∈ foldl (fun present token =>
                         if bool_decide (token ∈ known)
                         then present ∪ {[ token ]} else present) acc tokens
            <-> x ∈ acc \/ (x ∈ tokens /\ x ∈ known)) as Hfold.
  { induction tokens as [| t tokens IH]; intros acc; cbn [foldl].
    - rewrite elem_of_nil. tauto.
    - rewrite IH, elem_of_cons. case_bool_decide as Ht.
      + rewrite elem_of_union, elem_of_singleton. intuition (subst; tauto).
      + intuition (subst; tauto). }
  rewrite Hfold, elem_of_empty. tauto.
Qed.

End WithUnicode.
End AnalyzerFacts.

(** ** Lines, stripping and the optimiser *)

Module OptimizerFacts.
Import Py Matcher Spec PyFacts.

Lemma linebreak_space c : is_linebreak c = true -> is_space c = true.
Proof.
  unfold is_linebreak, is_space. intros Hc.
  nbool; rewrite ?orb_true_iff, ?andb_true_iff, ?N.leb_le, ?N.eqb_eq; lia.
Qed.

(** *** [strip] *)

Lemma lstrip_space s : Forall space s -> lstrip s = [].
Proof. induction 1 as [| c s Hc _ IH]; [done |]. cbn. by rewrite Hc. Qed.

Lemma strip_space s : Forall space s -> strip s = [].
Proof. intros Hs. unfold strip. by rewrite lstrip_space. Qed.

(** *** [splitlines] *)

Lemma splitlines_from_cons cur c rest :
  splitlines_from cur (c :: rest) =
    if is_linebreak c then
      rev cur :: match rest with
                 | c' :: rest' =>
                     if (c =? 13) && (c' =? 10) then splitlines_from [] rest'
                     else splitlines_from [] rest
                 | [] => splitlines_from [] rest
                 end
    else splitlines_from (c :: cur) rest.
Proof. reflexivity. Qed.

(** Every line inherits a property of all characters of the text. *)
Lemma splitlines_from_Forall (P : N -> Prop) s :
  forall cur, Forall P cur -> Forall P s -> Forall (Forall P) (splitlines_from cur s).
Proof.
  induction s as [| c | c c' rest IH1 IH2] using list_ind2; intros cur Hcur Hs.
  - cbn [splitlines_from]. destruct cur; repeat constructor. by apply Forall_rev.
  - apply Forall_cons in Hs as [Hc _]. cbn [splitlines_from].
    destruct (is_linebreak c); repeat constructor; try by apply Forall_rev.
    apply Forall_rev. by constructor.
  - rewrite splitlines_from_cons. pose proof Hs as Hs'.
    apply Forall_cons in Hs' as [Hc Hs']. pose proof Hs' as Hs''.
    apply Forall_cons in Hs'' as [Hc' Hr].
    destruct (is_linebreak c).
    + constructor; [by apply Forall_rev |].
      destruct ((c =? 13) && (c' =? 10)); [apply IH1 | apply IH2]; done.
    + apply IH2; [by constructor | done].
Qed.

(** No line contains a line boundary. *)
Lemma splitlines_from_inline s :
  forall cur, Forall inline cur -> Forall (Forall inline) (splitlines_from cur s).
Proof.
  induction s as [| c | c c' rest IH1 IH2] using list_ind2; intros cur Hcur.
  - cbn [splitlines_from]. destruct cur; repeat constructor. by apply Forall_rev.
  - cbn [splitlines_from]. destruct (is_linebreak c) eqn:Ec; repeat constructor; try by apply Forall_rev.
    apply Forall_rev. by constructor.
  - rewrite splitlines_from_cons. destruct (is_linebreak c) eqn:Ec.
    + constructor; [by apply Forall_rev |].
      destruct ((c =? 13) && (c' =? 10)); [apply IH1 | apply IH2]; constructor.
    + apply IH2. by constructor.
Qed.

Lemma splitlines_from_line l : forall cur rest,
  Forall inline l ->
  splitlines_from cur (l ++ 10 :: rest) = (rev cur ++ l) :: splitlines_from [] rest.
Proof.
  induction l as [| c l IH]; intros cur rest Hl.
  - cbn [app]. rewrite splitlines_from_cons. cbn. rewrite app_nil_r. by destruct rest.
  - apply Forall_cons in Hl as [Hc Hl]. cbn [app]. rewrite splitlines_from_cons, Hc, IH by done.
    cbn [rev]. by rewrite <- app_assoc.
Qed.

Lemma splitlines_from_last l : forall cur,
  Forall inline l -> l <> [] -> splitlines_from cur l = [rev cur ++ l].
Proof.
  induction l as [| c l IH]; intros cur Hl Hne; [done |].
  apply Forall_cons in Hl as [Hc Hl]. rewrite splitlines_from_cons, Hc.
  destruct l as [| c' l'].
  - reflexivity.
  - rewrite IH by done. cbn [rev]. by rewrite <- app_assoc.
Qed.

(** Splitting the join of non-empty lines gives the lines back. *)
Lemma splitlines_join ls : Forall line ls -> splitlines (join [10] ls) = ls.
Proof.
  unfold splitlines. induction 1 as [| l ls [Hne Hl] Hls IH]; [done |].
  destruct ls as [| l' ls'].
  - cbn [join]. by rewrite splitlines_from_last.
  - change (join [10] (l :: l' :: ls')) with (l ++ 10 :: join [10] (l' :: ls')).
    by rewrite splitlines_from_line, IH.
Qed.

(** *** [optimize_resume] *)

Lemma optimize_resume_eq resume_text :
  optimize_resume resume_text
  = header ++ join [10] (map bulletize (nonblank_lines (or_else resume_text []))).
Proof. reflexivity. Qed.

Lemma header_app rest :
  header ++ rest = summary_line ++ 10 :: (pitch_line ++ 10 :: rest).
Proof. unfold header. by rewrite <- !app_assoc. Qed.

Lemma forallb_inline l : forallb (fun c => negb (is_linebreak c)) l = true -> Forall inline l.
Proof.
  intros Hl. apply Forall_forall. intros c Hc%list_elem_of_In.
  rewrite forallb_forall in Hl. specialize (Hl c Hc).
  unfold inline. by destruct (is_linebreak c).
Qed.

(** The lines of an optimised resume are the two header lines followed
    by the bullet lines. *)
Lemma splitlines_header_join ls :
  Forall line ls ->
  splitlines (header ++ join [10] ls) = summary_line :: pitch_line :: ls.
Proof.
  intros Hls. rewrite header_app. unfold splitlines.
  rewrite !splitlines_from_line by (apply forallb_inline; vm_compute; reflexivity).
  cbn [rev app]. f_equal. f_equal. by apply splitlines_join.
Qed.

Lemma nonblank_trimmed ls :
  Forall trimmed ls -> map strip (filter (fun l => truthy (strip l) = true) ls) = ls.
Proof.
  induction 1 as [| l ls [Hs Hne] _ IH]; [done |].
  rewrite filter_cons_True by (rewrite Hs; by destruct l).
  cbn [map]. by rewrite Hs, IH.
Qed.

Lemma nonblank_lines_space text : Forall space text -> nonblank_lines text = [].
Proof.
  intros Ht. unfold nonblank_lines, splitlines.
  pose proof (splitlines_from_Forall space text [] ltac:(constructor) Ht) as Hl.
  induction Hl as [| l ls Hl _ IH]; [done |].
  rewrite filter_cons_False; [done |]. by rewrite strip_space.
Qed.

End OptimizerFacts.

(** ** The matcher *)

Module MatcherFacts.
Import Py Analyzer Float Matcher Spec FloatFacts.
#[local] Open Scope Z_scope.
#[local] Open Scope Q_scope.

Section WithUnicode.
Context `{Unicode}.

Lemma overlap_le (a b : gset str) :
  (0 <= set_len (a ∩ b) <= Z.max 1 (set_len b))%Z /\ (1 <= Z.max 1 (set_len b))%Z.
Proof.
  unfold set_len. assert (size (a ∩ b) ≤ size b)%nat.
  { apply subseteq_size, intersection_subseteq_r. }
  lia.
Qed.

(** Both branches return, with a percentage of the form [fl (k / 10)]. *)
Lemma match_of_ok (resume_text job_description : str) :
  exists (k : Z) (missing : list str),
    (0 <= k <= 1000)%Z
    /\ match_of resume_text job_description = Ok (fl (inject_Z k / 10), missing).
Proof.
  unfold match_of.
  destruct (bool_decide (_extract_skills job_description = ∅)).
  - set (a := list_to_set (_normalize resume_text) : gset str).
    set (b := list_to_set (_normalize job_description) : gset str).
    destruct (overlap_le a b) as [Ho Hd].
    destruct (percent_bounds _ _ Ho Hd) as (x & -> & Hx0 & Hx1).
    exists (rhe (x * 10)), []. split; [by apply round1_percent | reflexivity].
  - set (a := _extract_skills resume_text).
    set (b := _extract_skills job_description).
    destruct (overlap_le a b) as [Ho Hd].
    destruct (percent_bounds _ _ Ho Hd) as (x & -> & Hx0 & Hx1).
    exists (rhe (x * 10)), (sorted_list (b ∖ a)).
    split; [by apply round1_percent | reflexivity].
Qed.

(** [analyze_resume] continues from the match with the suggestions and
    the ATS score. *)
Lemma analyze_resume_shape resume_text job_description percent missing :
  match_of resume_text job_description = Ok (percent, missing) ->
  exists advice,
    analyze_resume resume_text job_description
    = Ok {| match_percent := percent;
            missing_skills := missing;
            suggestions := advice;
            ats_score :=
              round1 (py_max 0 (py_min 100
                (fsub percent (py_min 30 (fmul 5 (of_int (int_len missing))))))) |}.
Proof.
  intros Hm. unfold analyze_resume. unfold match_of in Hm. cbv zeta in *.
  rewrite Hm. eexists. reflexivity.
Qed.

(** In the fallback branch the match is the raw-token overlap. *)
Lemma match_of_fallback resume_text job_description :
  _extract_skills job_description = ∅ ->
  match_of resume_text job_description
  = bind (raw_token_overlap resume_text job_description) (fun p => Ok (p, [])).
Proof.
  intros Hjob. unfold match_of, raw_token_overlap, raw_tokens. cbv zeta.
  rewrite Hjob, bool_decide_eq_true_2 by reflexivity.
  by destruct (fdiv _ _).
Qed.

End WithUnicode.

End MatcherFacts.

(** ** The exporter *)

Module ExporterFacts.
Import Py Exporter Spec.

(** The bit operations of the encoder, as arithmetic. *)
Lemma lor_high (h x : N) (n : N) : x < 2 ^ n -> N.lor (h * 2 ^ n) x = h * 2 ^ n + x.
Proof.
  intros Hx. rewrite <- N.lxor_lor, <- N.add_nocarry_lxor; try done;
    apply N.bits_inj; intros i; rewrite N.land_spec, N.bits_0;
    destruct (N.lt_ge_cases i n) as [Hi | Hi].
  1,3: by rewrite N.mul_pow2_bits_low.
  1,2: rewrite <- (N.mod_small x (2 ^ n)) by done;
       rewrite N.mod_pow2_bits_high by done; apply andb_false_r.
Qed.

Lemma low_six (c : N) : N.land c 0x3F = c mod 64.
Proof. change 0x3F with (N.ones 6). by rewrite N.land_ones. Qed.

Lemma lor_continuation (x : N) : N.lor 0x80 (N.land x 0x3F) = 128 + x mod 64.
Proof.
  rewrite low_six. apply (lor_high 2 (x mod 64) 6).
  apply N.mod_upper_bound. done.
Qed.

Lemma lor_lead2 (c : N) : c < 0x800 -> N.lor 0xC0 (N.shiftr c 6) = 192 + c / 64.
Proof.
  intros Hc. rewrite N.shiftr_div_pow2. apply (lor_high 6 (c / 2 ^ 6) 5).
  apply N.Div0.div_lt_upper_bound. change (2 ^ 6 * 2 ^ 5) with 2048. done.
Qed.

Lemma lor_lead3 (c : N) : c < 0x10000 -> N.lor 0xE0 (N.shiftr c 12) = 224 + c / 4096.
Proof.
  intros Hc. rewrite N.shiftr_div_pow2. apply (lor_high 14 (c / 2 ^ 12) 4).
  apply N.Div0.div_lt_upper_bound. change (2 ^ 12 * 2 ^ 4) with 65536. done.
Qed.

Lemma lor_lead4 (c : N) : c < 0x110000 -> N.lor 0xF0 (N.shiftr c 18) = 240 + c / 262144.
Proof.
  intros Hc. rewrite N.shiftr_div_pow2. apply (lor_high 30 (c / 2 ^ 18) 3).
  apply N.Div0.div_lt_upper_bound. change (2 ^ 18 * 2 ^ 3) with 2097152. lia.
Qed.

Lemma decode_utf8_cons b0 r0 :
  decode_utf8 (b0 :: r0) =
    if b0 <? 0x80 then cons b0 <$> decode_utf8 r0
    else if b0 <? 0xC0 then None
    else if b0 <? 0xE0 then
      match r0 with
      | b1 :: r1 => cons (64 * (b0 - 0xC0) + (b1 - 0x80)) <$> decode_utf8 r1
      | _ => None
      end
    else if b0 <? 0xF0 then
      match r0 with
      | b1 :: b2 :: r2 =>
          cons (4096 * (b0 - 0xE0) + 64 * (b1 - 0x80) + (b2 - 0x80)) <$> decode_utf8 r2
      | _ => None
      end
    else
      match r0 with
      | b1 :: b2 :: b3 :: r3 =>
          cons (262144 * (b0 - 0xF0) + 4096 * (b1 - 0x80) + 64 * (b2 - 0x80) + (b3 - 0x80))
            <$> decode_utf8 r3
      | _ => None
      end.
Proof. reflexivity. Qed.

Lemma six_bits (x : N) : x = 64 * (x / 64) + x mod 64 /\ x mod 64 < 64.
Proof. split; [apply N.Div0.div_mod | by apply N.mod_upper_bound]. Qed.

(** Names the quotients and remainders by 64, for [lia]. *)
Ltac name_six_bits_of a :=
  let q := fresh "q" in
  let r := fresh "r" in
  destruct (six_bits a);
  set (q := a / 64) in *; set (r := a mod 64) in *; clearbody q r.

Ltac name_six_bits :=
  repeat match goal with
         | |- context [?a / 64] => name_six_bits_of a
         | |- context [?a mod 64] => name_six_bits_of a
         | H : context [?a / 64] |- _ => name_six_bits_of a
         end.

(** Decides the tests on the lead octet, outermost first. *)
Ltac lead_octet :=
  repeat match goal with
         | |- (if ?x <? ?y then _ else _) = _ =>
             destruct (N.ltb_spec x y); [try (exfalso; lia) | try (exfalso; lia)]
         end.

(** Decoding the octets of one code point gives it back. *)
Lemma decode_utf8_codepoint c b rest :
  utf8_of_codepoint c = Ok b ->
  decode_utf8 (b ++ rest) = cons c <$> decode_utf8 rest.
Proof.
  unfold utf8_of_codepoint.
  assert (c / 4096 = c / 64 / 64) as D2 by (by rewrite N.Div0.div_div).
  assert (c / 262144 = c / 64 / 64 / 64) as D3 by (by rewrite !N.Div0.div_div).
  destruct (N.ltb_spec c 0x80) as [H1 | H1].
  { intros [= <-]. cbn [app]. rewrite decode_utf8_cons. by lead_octet. }
  destruct (N.ltb_spec c 0x800) as [H2 | H2].
  { intros [= <-]. rewrite lor_lead2, lor_continuation by done. clear D2 D3.
    cbn [app]. rewrite decode_utf8_cons. name_six_bits. lead_octet.
    do 2 f_equal. lia. }
  destruct ((0xD800 <=? c) && (c <=? 0xDFFF)); [discriminate |].
  destruct (N.ltb_spec c 0x10000) as [H3 | H3].
  { intros [= <-]. rewrite lor_lead3, !lor_continuation by done.
    rewrite N.shiftr_div_pow2. change (2 ^ 6) with 64. rewrite D2. clear D2 D3.
    cbn [app]. rewrite decode_utf8_cons. name_six_bits. lead_octet.
    do 2 f_equal. lia. }
  destruct (N.ltb_spec c 0x110000) as [H4 | H4]; [| discriminate].
  intros [= <-]. rewrite lor_lead4, !lor_continuation by done.
  rewrite !N.shiftr_div_pow2. change (2 ^ 6) with 64. change (2 ^ 12) with 4096.
  rewrite D2, D3. clear D2 D3.
  cbn [app]. rewrite decode_utf8_cons. name_six_bits. lead_octet.
  do 2 f_equal. lia.
Qed.

(** Nothing is lost or altered: the encoding decodes to the text. *)
Lemma decode_encode_utf8 text b : encode_utf8 text = Ok b -> decode_utf8 b = Some text.
Proof.
  revert b. induction text as [| c text IH]; intros b; cbn [encode_utf8].
  - by intros [= <-].
  - destruct (utf8_of_codepoint c) as [bc |] eqn:Ec; [| discriminate]. cbn [bind].
    destruct (encode_utf8 text) as [bs |]; [| discriminate]. cbn [bind].
    intros [= <-]. rewrite (decode_utf8_codepoint _ _ _ Ec), (IH bs) by done. done.
Qed.

Lemma utf8_of_scalar c : is_scalar c = true -> exists b, utf8_of_codepoint c = Ok b.
Proof.
  unfold is_scalar, utf8_of_codepoint. intros Hc.
  repeat match goal with
         | |- context [if ?t then _ else _] => destruct t eqn:?
         end; eauto; exfalso; nbool; lia.
Qed.

(** Text without surrogates always has a UTF-8 encoding. *)
Lemma encode_utf8_scalar text :
  forallb is_scalar text = true -> exists b, encode_utf8 text = Ok b.
Proof.
  induction text as [| c text IH]; cbn [forallb encode_utf8]; [by eexists |].
  intros [Hc Ht]%andb_true_iff.
  destruct (utf8_of_scalar c Hc) as [b ->], (IH Ht) as [bs ->]. by eexists.
Qed.

(** The encoder fails on surrogates and beyond U+10FFFF only, and with
    [UnicodeEncodeError]. *)
Lemma utf8_of_codepoint_raise c :
  is_scalar c = false -> utf8_of_codepoint c = Raise UnicodeEncodeError.
Proof.
  unfold is_scalar, utf8_of_codepoint. intros Hc.
  apply orb_false_iff in Hc as [H1 H2].
  destruct (c <? 128) eqn:E1; [nbool; lia |].
  destruct (c <? 2048) eqn:E2; [nbool; lia |].
  destruct ((55296 <=? c) && (c <=? 57343)) eqn:E3; [done |].
  destruct (c <? 65536) eqn:E4.
  { apply andb_false_iff in E3. apply andb_false_iff in H2. nbool.
    destruct E3, H2; nbool; lia. }
  destruct (c <? 1114112) eqn:E5; [| done].
  apply andb_false_iff in H2. destruct H2; nbool; lia.
Qed.

Lemma encode_utf8_raise text :
  forallb is_scalar text = false -> encode_utf8 text = Raise UnicodeEncodeError.
Proof.
  induction text as [| c text IH]; [done |]. cbn [forallb encode_utf8].
  destruct (is_scalar c) eqn:Ec.
  - cbn [andb]. intros Ht. rewrite (IH Ht).
    destruct (utf8_of_scalar c Ec) as [b ->]. reflexivity.
  - intros _. by rewrite utf8_of_codepoint_raise.
Qed.

Lemma utf8_of_surrogate c :
  0xD800 <= c <= 0xDFFF -> utf8_of_codepoint c = Raise UnicodeEncodeError.
Proof.
  intros Hc. unfold utf8_of_codepoint.
  repeat match goal with
         | |- context [if ?t then _ else _] => destruct t eqn:?
         end; try reflexivity; exfalso; nbool; lia.
Qed.

Example encode_utf8_samples :
  encode_utf8 [233; 8364; 128512] = Ok [195; 169; 226; 130; 172; 240; 159; 152; 128].
Proof. reflexivity. Qed.

End ExporterFacts.

(** * The checked claims *)

Import Py Analyzer Float Matcher Exporter Spec.

(** C1.  For the resume "I have Python and Docker experience" and the job
    description "Looking for Python and Kubernetes skills",
    [analyze_resume] returns a match of 50.0, the missing skills
    ["kubernetes"] and an ATS score of 45.0, and the Kubernetes advice is
    among the suggestions (docker is a resume skill, kubernetes is not). *)
Theorem analyze_resume_example `{Unicode} :
  let resume := py "I have Python and Docker experience" in
  let job := py "Looking for Python and Kubernetes skills" in
  _extract_skills resume = {[ py "python"; py "docker" ]}
  /\ _extract_skills job = {[ py "python"; py "kubernetes" ]}
  /\ exists r,
       analyze_resume resume job = Ok r
       /\ match_percent r = 50%Q
       /\ missing_skills r = [py "kubernetes"]
       /\ ats_score r = 45%Q
       /\ suggestions r =
            [msg_quantify; msg_consider [py "kubernetes"]; msg_fastapi; msg_kubernetes]
       /\ In msg_kubernetes (suggestions r).
Proof.
  cbv zeta. split; [vm_compute; reflexivity |]. split; [vm_compute; reflexivity |].
  eexists. split; [vm_compute; reflexivity |].
  cbn [match_percent missing_skills ats_score suggestions].
  repeat split; try (vm_compute; reflexivity).
  do 3 right. left. vm_compute. reflexivity.
Qed.

(** C2.  For every resume and job description, empty ones included,
    [analyze_resume] returns (the division never raises: its denominator
    is [max(1, ...)]), and the match percentage lies between 0 and 100 and
    is the float nearest to a decimal [k / 10] with one fractional
    digit. *)
Theorem match_percent_range `{Unicode} (resume_text job_description : str) :
  (forall (a : Q) (n : Z), fdiv a (of_int (Z.max 1 n)) <> Raise ZeroDivisionError)
  /\ exists r,
       analyze_resume resume_text job_description = Ok r
       /\ (0 <= match_percent r)%Q /\ (match_percent r <= 100)%Q
       /\ exists k : Z, (0 <= k <= 1000)%Z /\ match_percent r = fl (inject_Z k / 10).
Proof.
  split.
  - intros a n. unfold fdiv.
    pose proof (FloatFacts.of_int_ge_1 (Z.max 1 n) ltac:(lia)) as Hd.
    destruct (Qeq_bool _ 0) eqn:E; [| discriminate].
    apply Qeq_bool_iff in E. exfalso. lra.
  - destruct (MatcherFacts.match_of_ok resume_text job_description)
      as (k & missing & Hk & Hm).
    destruct (MatcherFacts.analyze_resume_shape _ _ _ _ Hm) as (advice & ->).
    eexists. split; [reflexivity |]. cbn [match_percent].
    destruct (FloatFacts.decimal_bounds k Hk). eauto 6.
Qed.

(** C3.  When the job description has no recognized skill,
    [analyze_resume] returns no missing skills and the match percentage
    of the raw-token overlap. *)
Theorem fallback_without_job_skills `{Unicode} (resume_text job_description : str) :
  _extract_skills job_description = ∅ ->
  exists r,
    analyze_resume resume_text job_description = Ok r
    /\ missing_skills r = []
    /\ raw_token_overlap resume_text job_description = Ok (match_percent r).
Proof.
  intros Hjob.
  destruct (MatcherFacts.match_of_ok resume_text job_description)
    as (k & missing & Hk & Hm).
  destruct (MatcherFacts.analyze_resume_shape _ _ _ _ Hm) as (advice & ->).
  rewrite (MatcherFacts.match_of_fallback _ _ Hjob) in Hm.
  destruct (raw_token_overlap resume_text job_description) as [p |]; [| discriminate].
  cbn [bind] in Hm. injection Hm as -> <-.
  eexists. split; [reflexivity |]. split; reflexivity.
Qed.

Lemma fallback_without_job_skills_witness :
  @_extract_skills ascii_tables (py "Team lead wanted") = ∅
  /\ exists r,
       @analyze_resume ascii_tables (py "team player") (py "Team lead wanted") = Ok r
       /\ missing_skills r = []
       /\ @raw_token_overlap ascii_tables (py "team player") (py "Team lead wanted")
          = Ok (match_percent r).
Proof.
  split; [vm_compute; reflexivity |].
  apply (@fallback_without_job_skills ascii_tables (py "team player") (py "Team lead wanted")).
  vm_compute. reflexivity.
Defined.

(** C4.  For every resume and job description the ATS score is the
    rounded, clamped difference of the match percentage and the penalty
    [min(30, 5 * len(missing_skills))], and it does not exceed the match
    percentage. *)
Theorem ats_score_le_match_percent `{Unicode} (resume_text job_description : str) :
  exists r,
    analyze_resume resume_text job_description = Ok r
    /\ ats_score r =
         round1 (py_max 0 (py_min 100
           (fsub (match_percent r)
                 (py_min 30 (fmul 5 (of_int (int_len (missing_skills r))))))))
    /\ (ats_score r <= match_percent r)%Q.
Proof.
  destruct (MatcherFacts.match_of_ok resume_text job_description)
    as (k & missing & Hk & Hm).
  destruct (MatcherFacts.analyze_resume_shape _ _ _ _ Hm) as (advice & ->).
  eexists. split; [reflexivity |]. cbn [match_percent ats_score missing_skills].
  split; [reflexivity |].
  apply FloatFacts.ats_le_percent; [done | unfold int_len; lia].
Qed.

Lemma already_bulleted_lines text :
  already_bulleted text = true ->
  Forall (fun l => startswith l (py "-") = true /\ trimmed l
                   /\ line l) (splitlines text).
Proof.
  intros Hb. unfold already_bulleted in Hb. rewrite forallb_forall in Hb.
  pose proof (OptimizerFacts.splitlines_from_inline text [] ltac:(constructor)) as Hin.
  fold (splitlines text) in Hin. rewrite Forall_forall in Hin.
  apply Forall_forall. intros l Hl. specialize (Hin l Hl).
  apply list_elem_of_In, Hb, andb_true_iff in Hl as [Hdash Hstrip%bool_decide_eq_true].
  assert (l <> []) by (intros ->; discriminate).
  repeat split; done.
Qed.

(** C5, as stated, fails: on the bulleted, trimmed one-line text "- a" a
    second application bulletizes the header of the first and prepends
    another header. *)
Lemma optimize_resume_not_idempotent :
  already_bulleted (py "- a") = true
  /\ optimize_resume (optimize_resume (py "- a")) <> optimize_resume (py "- a").
Proof. split; [vm_compute; reflexivity | vm_compute; discriminate]. Qed.

(** C5, amended.  On a text whose lines all start with the bullet marker
    and are trimmed, [optimize_resume] prepends the header to the lines
    unchanged; applied again, it leaves these bullet lines unchanged once
    more, turns the two header lines of its input into bullets, and
    prepends a new header. *)
Theorem optimize_resume_twice (text : str) :
  already_bulleted text = true ->
  optimize_resume text = header ++ join [10] (splitlines text)
  /\ optimize_resume (optimize_resume text) =
       header ++ join [10]
         (py "- SUMMARY"
          :: py "- Results-driven professional with measurable achievements."
          :: splitlines text).
Proof.
  intros Hb%already_bulleted_lines.
  assert (nonblank_lines text = splitlines text) as Hn.
  { apply OptimizerFacts.nonblank_trimmed. eapply Forall_impl; [exact Hb |].
    cbn. tauto. }
  assert (map bulletize (splitlines text) = splitlines text) as Hm.
  { clear Hn. induction Hb as [| l ls (Hd & _ & _) _ IH]; [done |].
    cbn [map]. unfold bulletize at 1. by rewrite Hd, IH. }
  assert (optimize_resume text = header ++ join [10] (splitlines text)) as Ho.
  { by rewrite OptimizerFacts.optimize_resume_eq, PyFacts.or_else_nil, Hn, Hm. }
  split; [exact Ho |].
  rewrite Ho, OptimizerFacts.optimize_resume_eq.
  rewrite PyFacts.or_else_nil. unfold nonblank_lines.
  rewrite OptimizerFacts.splitlines_header_join
    by (eapply Forall_impl; [exact Hb |]; cbn; tauto).
  rewrite !filter_cons_True by (vm_compute; reflexivity).
  fold (nonblank_lines text) in Hn. unfold nonblank_lines in Hn.
  cbn [map]. rewrite Hn, Hm. reflexivity.
Qed.

Lemma optimize_resume_twice_witness :
  already_bulleted (py "- a") = true
  /\ optimize_resume (optimize_resume (py "- a")) =
       header ++ join [10]
         [py "- SUMMARY";
          py "- Results-driven professional with measurable achievements.";
          py "- a"].
Proof.
  split; [vm_compute; reflexivity |].
  apply (optimize_resume_twice (py "- a")). vm_compute. reflexivity.
Defined.

(** C10.  On an empty or whitespace-only text [optimize_resume] returns
    exactly the header, which consists of the line "SUMMARY" and the
    fixed summary sentence; no bullet line is appended. *)
Theorem optimize_resume_blank (text : str) :
  forallb is_space text = true ->
  optimize_resume text = header
  /\ splitlines header =
       [py "SUMMARY"; py "Results-driven professional with measurable achievements."].
Proof.
  intros Hs. split; [| vm_compute; reflexivity].
  rewrite OptimizerFacts.optimize_resume_eq, PyFacts.or_else_nil.
  rewrite OptimizerFacts.nonblank_lines_space.
  - cbn [map join]. by rewrite app_nil_r.
  - apply Forall_forall. intros c Hc%list_elem_of_In.
    rewrite forallb_forall in Hs. by apply Hs.
Qed.

Lemma optimize_resume_blank_witness :
  forallb is_space [32; 10; 9; 13; 10; 160] = true
  /\ optimize_resume [32; 10; 9; 13; 10; 160] = header.
Proof.
  split; [reflexivity |].
  apply (optimize_resume_blank [32; 10; 9; 13; 10; 160]). reflexivity.
Defined.

(** C6.  "ci/cd" is in the vocabulary but is never extracted: the
    tokenizer splits at "/", and the merge step joins neighbours with a
    space, giving "ci cd", which is not in the vocabulary. *)
Theorem ci_cd_never_extracted `{Unicode} :
  py "ci/cd" ∈ KNOWN_SKILLS
  /\ (forall text, py "ci/cd" ∉ _extract_skills text)
  /\ WORD_SPLIT_RE_split (py "ci/cd") = [py "ci"; py "cd"]
  /\ _normalize (py "ci/cd") = [py "ci"; py "cd"]
  /\ py "ci cd" ∉ KNOWN_SKILLS.
Proof.
  split; [apply (bool_decide_unpack _); vm_compute; exact I |].
  split.
  - intros text [Hin _]%AnalyzerFacts._extract_skills_spec.
    pose proof (AnalyzerFacts._normalize_plain text) as Hp.
    rewrite Forall_forall in Hp. specialize (Hp _ Hin).
    unfold plain in Hp. rewrite Forall_forall in Hp.
    apply (Hp 47); [| reflexivity].
    change (py "ci/cd") with [99; 105; 47; 99; 100]. set_solver.
  - split; [vm_compute; reflexivity |]. split; [vm_compute; reflexivity |].
    intros Hin. apply (bool_decide_pack _) in Hin. vm_compute in Hin. exact Hin.
Qed.

(** C7, as stated, fails: a text that holds a lone surrogate has no UTF-8
    encoding, and with format "txt" the call raises instead of returning
    bytes. *)
Lemma generate_txt_lone_surrogate :
  @generate_resume_bytes ascii_tables without_docx [55296] (py "txt")
  = Raise UnicodeEncodeError
  /\ forall b media_type filename,
       @generate_resume_bytes ascii_tables without_docx [55296] (py "txt")
       <> Ok (b, media_type, filename).
Proof. split; [vm_compute; reflexivity | intros b m f; vm_compute; discriminate]. Qed.

(** C7, amended.  With format "txt" and a text without surrogates,
    [generate_resume_bytes] returns the UTF-8 encoding of the text as it
    is (its octets decode to the text again), with the media type
    "text/plain; charset=utf-8" and the file name "resume.txt"; the empty
    text gives no bytes, and "A\n\nB" gives its four bytes.  On a text
    that holds a surrogate the call raises [UnicodeEncodeError]. *)
Theorem generate_txt_utf8 `{Unicode} `{Libraries} (text : str) :
  (forallb is_scalar text = true ->
   exists b,
     encode_utf8 text = Ok b
     /\ decode_utf8 b = Some text
     /\ generate_resume_bytes text (py "txt")
        = Ok (b, py "text/plain; charset=utf-8", py "resume.txt"))
  /\ (forallb is_scalar text = false ->
      generate_resume_bytes text (py "txt") = Raise UnicodeEncodeError)
  /\ generate_resume_bytes [] (py "txt")
     = Ok ([], py "text/plain; charset=utf-8", py "resume.txt")
  /\ generate_resume_bytes [65; 10; 10; 66] (py "txt")
     = Ok ([65; 10; 10; 66], py "text/plain; charset=utf-8", py "resume.txt").
Proof.
  assert (forall t, generate_resume_bytes t (py "txt")
                    = bind (encode_utf8 t)
                        (fun b => Ok (b, py "text/plain; charset=utf-8", py "resume.txt")))
    as Hgen.
  { intros t. unfold generate_resume_bytes.
    assert (lower (or_else (py "txt") (py "pdf")) = py "txt") as ->
      by (vm_compute; reflexivity).
    rewrite bool_decide_eq_false_2 by (vm_compute; discriminate).
    rewrite bool_decide_eq_true_2 by reflexivity.
    by rewrite PyFacts.or_else_nil. }
  split; [| split; [| split; rewrite Hgen; reflexivity]].
  - intros [b Hb]%ExporterFacts.encode_utf8_scalar. exists b.
    split; [done |]. split; [by apply ExporterFacts.decode_encode_utf8 |].
    by rewrite Hgen, Hb.
  - intros Hs. by rewrite Hgen, (ExporterFacts.encode_utf8_raise text Hs).
Qed.

Lemma generate_txt_utf8_witness :
  forallb is_scalar [233; 8364; 128512] = true
  /\ @generate_resume_bytes ascii_tables without_docx [233; 8364; 128512] (py "txt")
     = Ok ([195; 169; 226; 130; 172; 240; 159; 152; 128],
           py "text/plain; charset=utf-8", py "resume.txt").
Proof.
  split; [reflexivity |].
  destruct (@generate_txt_utf8 ascii_tables without_docx [233; 8364; 128512])
    as (Hscalar & _).
  destruct (Hscalar eq_refl) as (b & Hb & _ & Hg).
  cbn in Hb. injection Hb as <-. exact Hg.
Defined.

(** C8.  A non-empty format whose lowercasing is none of "pdf", "docx"
    and "txt" makes [generate_resume_bytes] raise
    [ValueError("Unsupported format")]; nothing is returned. *)
Theorem unsupported_format `{Unicode} `{Libraries} (text fmt : str) :
  truthy fmt = true ->
  lower fmt <> py "pdf" -> lower fmt <> py "docx" -> lower fmt <> py "txt" ->
  generate_resume_bytes text fmt = Raise (ValueError (py "Unsupported format")).
Proof.
  intros Hne Hpdf Hdocx Htxt. unfold generate_resume_bytes, or_else. rewrite Hne.
  by rewrite !bool_decide_eq_false_2.
Qed.

Lemma unsupported_format_witness :
  @generate_resume_bytes ascii_tables without_docx (py "Jane Doe") (py "xml")
  = Raise (ValueError (py "Unsupported format")).
Proof.
  apply (@unsupported_format ascii_tables without_docx (py "Jane Doe") (py "xml"));
    [reflexivity | vm_compute; discriminate ..].
Defined.

(** C9.  With format "docx" and no document-authoring library installed,
    [generate_resume_bytes] raises the [RuntimeError] that names the
    missing dependency; it is not the [ValueError] of an unsupported
    format, and no bytes are produced. *)
Theorem docx_unavailable `{Unicode} `{Libraries} (text : str) :
  _DOCX_AVAILABLE = false ->
  generate_resume_bytes text (py "docx")
  = Raise (RuntimeError (py "DOCX export requires python-docx. Please install it."))
  /\ forall msg, generate_resume_bytes text (py "docx") <> Raise (ValueError msg).
Proof.
  intros Hd.
  assert (generate_resume_bytes text (py "docx")
          = Raise (RuntimeError (py "DOCX export requires python-docx. Please install it.")))
    as E.
  { unfold generate_resume_bytes.
    assert (lower (or_else (py "docx") (py "pdf")) = py "docx") as ->
      by (vm_compute; reflexivity).
    rewrite !bool_decide_eq_false_2 by (vm_compute; discriminate).
    rewrite bool_decide_eq_true_2 by reflexivity.
    by rewrite Hd. }
  split; [exact E |]. intros msg. rewrite E. discriminate.
Qed.

Lemma docx_unavailable_witness :
  @generate_resume_bytes ascii_tables without_docx (py "Jane Doe") (py "docx")
  = Raise (RuntimeError (py "DOCX export requires python-docx. Please install it.")).
Proof.
  apply (@docx_unavailable ascii_tables without_docx (py "Jane Doe")). reflexivity.
Defined.

(** * Further properties *)

(** ** [strip] *)

Module StripFacts.
Import Py Spec Vocabulary.

Lemma lstrip_clean s : clean (lstrip s).
Proof.
  induction s as [| c s IH]; [done |]. cbn [lstrip].
  destruct (is_space c) eqn:Ec; [done |]. cbn. done.
Qed.

Lemma lstrip_fix s : clean s -> lstrip s = s.
Proof. destruct s as [| c s]; [done |]. cbn. by intros ->. Qed.

Lemma clean_app s t : clean s -> s <> [] -> clean (s ++ t).
Proof. by destruct s. Qed.

(** A non-empty prefix of a clean text is clean. *)
Lemma clean_prefix p q : clean (p ++ q) -> clean p.
Proof. by destruct p. Qed.

Lemma strip_trim s : trim (strip s).
Proof.
  unfold strip, rstrip, trim. rewrite rev_involutive.
  split; [| apply lstrip_clean].
  destruct (AnalyzerFacts.lstrip_suffix (rev (lstrip s))) as [p Hp].
  apply (f_equal (@rev N)) in Hp. rewrite rev_involutive, rev_app_distr in Hp.
  pose proof (lstrip_clean s) as Hc. rewrite Hp in Hc.
  by apply clean_prefix in Hc.
Qed.

Lemma strip_fix s : trim s -> strip s = s.
Proof.
  intros [H1 H2]. unfold strip, rstrip.
  by rewrite (lstrip_fix s), (lstrip_fix (rev s)), rev_involutive.
Qed.

Lemma strip_idem s : strip (strip s) = strip s.
Proof. apply strip_fix, strip_trim. Qed.

Lemma trimmed_trim l : trimmed l <-> trim l /\ l <> [].
Proof.
  unfold trimmed. split.
  - intros [Hs Hne]. split; [| done]. rewrite <- Hs. apply strip_trim.
  - intros [Ht Hne]. split; [by apply strip_fix | done].
Qed.

End StripFacts.

(** ** Tokens *)

Module TokenFacts.
Import Py Analyzer Spec Vocabulary PyFacts AnalyzerFacts StripFacts.

Lemma word_char_not_space c : is_word_char c = true -> is_space c = false.
Proof.
  unfold is_word_char, is_space. intros Hc.
  destruct (_ || _) eqn:E in |- *; [| done]. exfalso.
  apply orb_true_iff in Hc as [Hc | Hc]; nbool; lia.
Qed.

Lemma word_clean t : word t -> clean t.
Proof. intros Ht. destruct Ht as [| c t Hc _]; [done |]. by apply word_char_not_space. Qed.

(** [strip] does nothing on a piece of [_WORD_SPLIT_RE.split]. *)
Lemma strip_word t : word t -> strip t = t.
Proof.
  intros Ht. apply strip_fix. split; apply word_clean; [done | by apply Forall_rev].
Qed.

Lemma filter_map_ext {A B} (f : A -> B) (P : A -> Prop) (Q : B -> Prop)
    `{forall x, Decision (P x)} `{forall y, Decision (Q y)} (l : list A) :
  (forall x, P x <-> Q (f x)) -> filter Q (map f l) = map f (filter P l).
Proof.
  intros HPQ. induction l as [| x l IH]; [done |]. cbn [map].
  rewrite !filter_cons. destruct (decide (P x)) as [Hp | Hp], (decide (Q (f x))) as [Hq | Hq];
    cbn [map]; rewrite ?IH; try done; exfalso; by apply HPQ in Hp || apply HPQ in Hq.
Qed.

Section WithUnicode.
Context `{Unicode}.

(** The tokens are the non-empty pieces, lowercased. *)
Lemma tokenize_pieces text :
  tokenize text
  = map (map ascii_lower) (filter (fun t => truthy t = true) (WORD_SPLIT_RE_split text)).
Proof.
  unfold tokenize, WORD_SPLIT_RE_split.
  pose proof (split_from_word false [] text ltac:(constructor)) as Hw.
  induction Hw as [| t ts Ht _ IH]; [done |].
  rewrite !filter_cons, (strip_word t Ht).
  destruct (decide (truthy t = true)); cbn [map]; rewrite ?IH; [| done].
  by rewrite (strip_word t Ht), lower_word.
Qed.

End WithUnicode.

Lemma ascii_lower_idem c : ascii_lower (ascii_lower c) = ascii_lower c.
Proof.
  unfold ascii_lower. destruct ((65 <=? c) && (c <=? 90)) eqn:E; [| by rewrite E].
  destruct ((65 <=? c + 32) && (c + 32 <=? 90)) eqn:E2; [| done]. nbool; lia.
Qed.

Lemma ascii_lower_word c : is_word_char (ascii_lower c) = is_word_char c.
Proof.
  unfold ascii_lower. destruct ((65 <=? c) && (c <=? 90)) eqn:E; [| done].
  unfold is_word_char. nbool.
  replace ((97 <=? c + 32) && (c + 32 <=? 122)) with true
    by (symmetry; apply andb_true_iff; split; apply N.leb_le; lia).
  replace ((65 <=? c) && (c <=? 90)) with true
    by (symmetry; apply andb_true_iff; split; apply N.leb_le; lia).
  by rewrite !orb_true_r.
Qed.

(** Lowercasing the text lowercases the pieces. *)
Lemma split_from_lower in_run cur text :
  split_from in_run (map ascii_lower cur) (map ascii_lower text)
  = map (map ascii_lower) (split_from in_run cur text).
Proof.
  revert in_run cur. induction text as [| c text IH]; intros in_run cur; cbn [map split_from].
  - by rewrite map_rev.
  - rewrite ascii_lower_word. destruct (is_word_char c).
    + apply (IH false (c :: cur)).
    + destruct in_run; [apply (IH true []) |]. cbn [map]. rewrite map_rev. f_equal.
      apply (IH true []).
Qed.

(** Text without a word character has no non-empty piece. *)
Lemma split_from_delimiters in_run text :
  forallb (fun c => negb (is_word_char c)) text = true ->
  Forall (fun t => t = []) (split_from in_run [] text).
Proof.
  revert in_run. induction text as [| c text IH]; intros in_run; cbn [forallb split_from].
  - by repeat constructor.
  - intros [Hc Ht]%andb_true_iff. apply negb_true_iff in Hc. rewrite Hc.
    destruct in_run; [by apply IH |]. constructor; [done | by apply IH].
Qed.

(** *** The merge loop keeps the text of the tokens *)

Lemma join_cons sep (p : list N) ps :
  join sep (p :: ps) = p ++ match ps with [] => [] | _ :: _ => sep ++ join sep ps end.
Proof. destruct ps; cbn [join]; by rewrite ?app_nil_r. Qed.

Lemma merge_pairs_nil tokens : merge_pairs tokens = [] -> tokens = [].
Proof.
  destruct tokens as [| current [| nxt rest]]; [done | done |].
  rewrite merge_pairs_cons. by destruct (_ && _).
Qed.

Lemma join_merge_pairs tokens : join (py " ") (merge_pairs tokens) = join (py " ") tokens.
Proof.
  induction tokens as [| current | current nxt rest IH1 IH2] using list_ind2; [done | done |].
  rewrite merge_pairs_cons. destruct (_ && _).
  - rewrite (join_cons _ current), (join_cons _ nxt), (join_cons _ (current ++ _ ++ nxt)).
    rewrite IH1. destruct (merge_pairs rest) eqn:E.
    + apply merge_pairs_nil in E as ->. by rewrite <- !app_assoc.
    + destruct rest; [done |]. by rewrite <- !app_assoc.
  - rewrite (join_cons _ current), (join_cons _ current (nxt :: rest)), IH2.
    destruct (merge_pairs (nxt :: rest)) eqn:E; [| done].
    by apply merge_pairs_nil in E.
Qed.

Lemma merge_pairs_length tokens : (length (merge_pairs tokens) <= length tokens)%nat.
Proof.
  induction tokens as [| current | current nxt rest IH1 IH2] using list_ind2;
    [done | done |].
  rewrite merge_pairs_cons. destruct (_ && _); cbn [length] in *; lia.
Qed.

(** *** The shape of the tokens *)

Lemma word_char_piece c : is_word_char c = true -> is_piece_char (ascii_lower c) = true.
Proof.
  unfold is_word_char, is_piece_char, ascii_lower. intros Hc.
  destruct ((65 <=? c) && (c <=? 90)) eqn:E; nbool;
    rewrite ?orb_true_iff, ?andb_true_iff, ?N.leb_le, ?N.eqb_eq; lia.
Qed.

(** The tokens before the merge loop are pieces. *)
Lemma tokenize_piece `{Unicode} text : Forall piece (tokenize text).
Proof.
  rewrite tokenize_pieces. apply Forall_map, Forall_forall.
  intros t [Hne Hin]%list_elem_of_filter.
  pose proof (split_from_word false [] text ltac:(constructor)) as Hw.
  rewrite Forall_forall in Hw. specialize (Hw t Hin).
  split; [by destruct t |]. rewrite forallb_forall. intros c Hc.
  apply in_map_iff in Hc as (c0 & <- & Hc0). apply word_char_piece.
  unfold word in Hw. rewrite Forall_forall in Hw. by apply Hw, list_elem_of_In.
Qed.

(** The loop keeps a piece or puts two neighbours together, and the
    latter only for an entry of the vocabulary. *)
Lemma merge_pairs_shape tokens :
  Forall piece tokens -> Forall (fun t => piece t \/ merged_pair t) (merge_pairs tokens).
Proof.
  induction tokens as [| current | current nxt rest IH1 IH2] using list_ind2;
    [done | |].
  { intros [Hc _]%Forall_cons. constructor; [by left | constructor]. }
  intros Ht. rewrite merge_pairs_cons.
  pose proof Ht as [Hc [Hn Hr]%Forall_cons]%Forall_cons.
  destruct (truthy nxt && _) eqn:E.
  - apply andb_true_iff in E as [_ Hk%bool_decide_eq_true].
    constructor; [| by apply IH1]. right. by exists current, nxt.
  - constructor; [by left |]. apply IH2. by apply Forall_cons in Ht as [_ ?].
Qed.

End TokenFacts.

(** ** Sorting, rounding and the analysis *)

Module AnalysisFacts.
Import Py Analyzer Float Matcher Spec Vocabulary FloatFacts MatcherFacts.

Lemma str_leb_total a b : str_leb a b = true \/ str_leb b a = true.
Proof.
  revert b. induction a as [| x a IH]; intros [| y b]; cbn; auto.
  destruct (N.lt_trichotomy x y) as [Hlt | [-> | Hgt]].
  - left. apply orb_true_iff. left. by apply N.ltb_lt.
  - rewrite N.ltb_irrefl, N.eqb_refl. cbn. apply IH.
  - right. apply orb_true_iff. left. by apply N.ltb_lt.
Qed.

#[local] Instance str_le_total : Total str_le.
Proof.
  intros a b. unfold str_le. destruct (str_leb_total a b) as [-> | ->]; cbn; auto.
Qed.

(** [sorted(list(s))] is ordered, has no repetition and holds the
    elements of [s]. *)
Lemma sorted_list_spec (s : gset (list N)) :
  Sorted str_le (sorted_list s) /\ NoDup (sorted_list s)
  /\ forall x, x ∈ sorted_list s <-> x ∈ s.
Proof.
  unfold sorted_list. split; [apply Sorted_merge_sort, _ |]. split.
  - rewrite merge_sort_Permutation. apply NoDup_elements.
  - intros x. by rewrite merge_sort_Permutation, elem_of_elements.
Qed.

Lemma sorted_list_empty : sorted_list ∅ = [].
Proof. unfold sorted_list. by rewrite elements_empty. Qed.

(** *** Rounding *)

#[local] Open Scope Z_scope.
#[local] Open Scope Q_scope.

Lemma fl_zero x : x == 0 -> fl x = 0.
Proof.
  intros Hx. unfold fl.
  assert (inject_Z (rhe (x / pow2 (expo x))) * pow2 (expo x) == 0) as E.
  { assert (x / pow2 (expo x) == inject_Z 0) as Hd.
    { unfold Qdiv. generalize (/ pow2 (expo x)). intros. rewrite Hx. ring. }
    rewrite (rhe_proper _ _ Hd), rhe_Z. ring. }
  by rewrite (Qred_complete _ _ E).
Qed.

Lemma round1_range x : 0 <= x -> x <= 100 -> 0 <= round1 x /\ round1 x <= 100.
Proof.
  intros H0 H1. unfold round1. apply decimal_bounds. split.
  - apply rhe_ge_Z. change (inject_Z 0) with 0. lra.
  - apply rhe_le_Z. change (inject_Z 1000) with 1000. lra.
Qed.

Lemma clamp_range y : 0 <= py_max 0 (py_min 100 y) /\ py_max 0 (py_min 100 y) <= 100.
Proof.
  destruct (py_min_spec 100 y) as [[? ->] | [? ->]];
    [destruct (py_max_spec 0 y) as [[? ->] | [? ->]]
    | destruct (py_max_spec 0 100) as [[? ->] | [? ->]]]; lra.
Qed.

Lemma penalty_nonneg {A} (missing : list A) :
  0 <= py_min 30 (fmul 5 (of_int (int_len missing))).
Proof.
  unfold fmul.
  pose proof (of_int_nonneg (int_len missing) ltac:(unfold int_len; lia)) as H0.
  assert (0 <= 5 * of_int (int_len missing)) as H1 by lra.
  pose proof (fl_nonneg _ H1).
  destruct (py_min_spec 30 (fl (5 * of_int (int_len missing)))) as [[_ ->] | [_ ->]]; lra.
Qed.

(** [100.0 * n / n] rounds to 100.0 for every positive count. *)
Lemma percent_full (n : Z) :
  (1 <= n)%Z ->
  exists x, fdiv (fmul 100 (of_int n)) (of_int n) = Ok x /\ round1 x = 100.
Proof.
  intros Hn. unfold fdiv, fmul.
  pose proof (of_int_ge_1 n Hn) as Ha. set (a := of_int n) in *.
  destruct (Qeq_bool a 0) eqn:Ea.
  { apply Qeq_bool_iff in Ea. exfalso. lra. }
  eexists. split; [reflexivity |].
  assert (pow2 (emin + 52) <= 100 * a) as Hnorm.
  { apply Qle_trans with 1; [| lra]. change 1 with (pow2 0). apply pow2_le. done. }
  destruct (fl_error _ Hnorm) as [E1 E2].
  pose proof (pow2_pos (-53)) as Hu.
  assert (pow2 (-53) <= 1 # 1000000) as Hu' by (vm_compute; discriminate).
  assert ((3199 # 32) <= fl (100 * a) / a) as Hlo.
  { apply Qle_shift_div_l; [lra |]. nra. }
  assert (fl (100 * a) / a <= 100 + pow2 (-46)) as Hhi.
  { apply Qle_shift_div_r; [lra |].
    assert (100 * (1 + pow2 (-53)) <= 100 + pow2 (-46)) as Hc by (vm_compute; discriminate).
    nra. }
  assert (fl (3199 # 32) = 3199 # 32) as Hl by (vm_compute; reflexivity).
  assert (fl (100 + pow2 (-46)) = 100 + pow2 (-46)) as Hh by (vm_compute; reflexivity).
  assert (0 <= 3199 # 32) as Hpos by (vm_compute; discriminate).
  pose proof (fl_mono (3199 # 32) (fl (100 * a) / a) Hpos Hlo) as Hx1. rewrite Hl in Hx1.
  pose proof (fl_mono (fl (100 * a) / a) _ ltac:(lra) Hhi) as Hx2. rewrite Hh in Hx2.
  assert (pow2 (-46) <= 1 # 1000) as Hs by (vm_compute; discriminate).
  unfold round1.
  rewrite (rhe_unique (fl (fl (100 * a) / a) * 10) 1000).
  - vm_compute. reflexivity.
  - change (inject_Z 1000) with 1000. lra.
  - change (inject_Z 1000) with 1000. lra.
Qed.

Section WithUnicode.
Context `{Unicode}.

(** Whatever the branch, the missing skills are the sorted job skills
    that the resume lacks. *)
Lemma match_of_missing resume_text job_description percent missing :
  match_of resume_text job_description = Ok (percent, missing) ->
  missing = sorted_list (_extract_skills job_description ∖ _extract_skills resume_text).
Proof.
  unfold match_of. cbv zeta. case_bool_decide as Hjob.
  - rewrite Hjob. destruct (fdiv _ _); [| discriminate]. cbn [bind]. intros [= _ <-].
    assert ((∅ : gset (list N)) ∖ _extract_skills resume_text = ∅) as -> by set_solver.
    by rewrite sorted_list_empty.
  - destruct (fdiv _ _); [| discriminate]. cbn [bind]. by intros [= _ <-].
Qed.

Lemma match_of_covered resume_text job_description :
  _extract_skills job_description <> ∅ ->
  _extract_skills job_description ⊆ _extract_skills resume_text ->
  match_of resume_text job_description = Ok (100, []).
Proof.
  intros Hne Hsub. unfold match_of. cbv zeta.
  rewrite bool_decide_eq_false_2 by done.
  set (job := _extract_skills job_description) in *.
  set (resume := _extract_skills resume_text) in *.
  assert (resume ∩ job = job) as -> by set_solver.
  assert (job ∖ resume = ∅) as -> by set_solver.
  assert (size job <> 0%nat) as Hsz.
  { intros E%size_empty_inv. by apply leibniz_equiv in E. }
  assert (Z.max 1 (set_len job) = set_len job) as -> by (unfold set_len; lia).
  destruct (percent_full (set_len job)) as (x & -> & Hx); [unfold set_len; lia |].
  cbn [bind]. by rewrite Hx, sorted_list_empty.
Qed.

Lemma match_of_disjoint resume_text job_description :
  _extract_skills job_description <> ∅ ->
  _extract_skills resume_text ∩ _extract_skills job_description = ∅ ->
  match_of resume_text job_description
  = Ok (0, sorted_list (_extract_skills job_description)).
Proof.
  intros Hne Hdis. unfold match_of. cbv zeta.
  rewrite bool_decide_eq_false_2 by done. rewrite Hdis.
  set (job := _extract_skills job_description) in *.
  set (resume := _extract_skills resume_text) in *.
  assert (job ∖ resume = job) as -> by set_solver.
  change (fmul 100 (of_int (set_len ∅))) with 0.
  unfold fdiv. pose proof (of_int_ge_1 (Z.max 1 (set_len job)) ltac:(lia)) as Hb.
  destruct (Qeq_bool _ 0) eqn:E.
  { apply Qeq_bool_iff in E. exfalso. lra. }
  cbn [bind]. rewrite fl_zero; [reflexivity |].
  unfold Qdiv. ring.
Qed.

(** The suggestions and the score that [analyze_resume] derives from the
    match. *)
Lemma analyze_resume_advice resume_text job_description percent missing :
  match_of resume_text job_description = Ok (percent, missing) ->
  exists r,
    analyze_resume resume_text job_description = Ok r
    /\ match_percent r = percent /\ missing_skills r = missing
    /\ ats_score r =
         round1 (py_max 0 (py_min 100
           (fsub percent (py_min 30 (fmul 5 (of_int (int_len missing)))))))
    /\ suggestions r <> []
    /\ (length (suggestions r) <= 4)%nat
    /\ (ltb percent 60 = true -> head (suggestions r) = Some msg_quantify)
    /\ (missing <> [] -> In (msg_consider missing) (suggestions r)).
Proof.
  intros Hm. unfold analyze_resume. unfold match_of in Hm. cbv zeta in *.
  rewrite Hm. cbn [bind]. eexists. split; [reflexivity |].
  cbn [match_percent missing_skills ats_score suggestions].
  do 3 (split; [reflexivity |]).
  destruct (ltb percent 60), missing as [| m ms];
    destruct (bool_decide (py "python" ∈ _) && _), (bool_decide (py "docker" ∈ _) && _);
    cbn [nonempty app length head];
    (split; [discriminate |]); (split; [lia |]); (split; [done |]);
    intros Hne; try done; cbn; tauto.
Qed.

End WithUnicode.

End AnalysisFacts.

(** ** Bullet lines *)

Module BulletFacts.
Import Py Matcher Spec Vocabulary PyFacts AnalyzerFacts OptimizerFacts StripFacts.

Lemma nonblank_lines_spec text :
  Forall (fun l => trimmed l /\ Forall inline l) (nonblank_lines text).
Proof.
  unfold nonblank_lines. apply Forall_map, Forall_forall.
  intros l [Hl Hin]%list_elem_of_filter.
  pose proof (splitlines_from_inline text [] ltac:(constructor)) as Hi.
  fold (splitlines text) in Hi. rewrite Forall_forall in Hi. specialize (Hi l Hin).
  split; [| by apply strip_Forall].
  apply trimmed_trim. split; [apply strip_trim |]. by destruct (strip l).
Qed.

Lemma bulletize_bullet l : trimmed l -> Forall inline l -> bullet (bulletize l).
Proof.
  intros Ht Hi. unfold bulletize. destruct (startswith l (py "-")) eqn:Es.
  - repeat split; try done; apply Ht.
  - apply trimmed_trim in Ht as [[Hc Hr] Hne].
    split; [reflexivity |]. split.
    + apply trimmed_trim. split; [| done]. split; [done |].
      change (py "- " ++ l) with ([45; 32] ++ l). rewrite rev_app_distr.
      apply clean_app; [done |]. by destruct l using rev_ind; [| rewrite rev_app_distr].
    + split; [done |]. change (py "- ") with [45; 32]. by repeat constructor.
Qed.

Lemma bulletize_fix l : startswith l (py "-") = true -> bulletize l = l.
Proof. unfold bulletize. by intros ->. Qed.

Lemma body_bullets text : Forall bullet (map bulletize (nonblank_lines text)).
Proof.
  apply Forall_map. eapply Forall_impl; [apply nonblank_lines_spec |].
  intros l [Ht Hi]. by apply bulletize_bullet.
Qed.

(** Bullet lines come back unchanged from the line filter and from the
    bullet prefixing. *)
Lemma bullets_fixed ls :
  Forall bullet ls ->
  map bulletize (map strip (filter (fun l => truthy (strip l) = true) ls)) = ls.
Proof.
  intros Hb. rewrite nonblank_trimmed by (eapply Forall_impl; [exact Hb |]; by intros l (_ & ? & _)).
  induction Hb as [| l ls (Hd & _ & _) _ IH]; [done |].
  cbn [map]. by rewrite (bulletize_fix l Hd), IH.
Qed.

(** The lines of an optimised resume. *)
Lemma optimized_lines text :
  splitlines (optimize_resume text)
  = summary_line :: pitch_line :: map bulletize (nonblank_lines text).
Proof.
  rewrite optimize_resume_eq, or_else_nil.
  apply splitlines_header_join.
  eapply Forall_impl; [apply body_bullets |]. by intros l (_ & _ & ?).
Qed.

End BulletFacts.

(** ** Latin-1 and paragraphs *)

Module ExportFacts.
Import Py Exporter Spec Vocabulary PyFacts.

Lemma _to_latin1_latin1 text : latin1 (_to_latin1 text).
Proof.
  unfold latin1, _to_latin1. apply Forall_map, Forall_forall. intros c _.
  destruct (N.ltb_spec c 256); [done | lia].
Qed.

Lemma _to_latin1_fix text : latin1 text -> _to_latin1 text = text.
Proof.
  unfold _to_latin1. induction 1 as [| c text Hc _ IH]; [done |].
  cbn [map]. rewrite IH. by apply N.ltb_lt in Hc as ->.
Qed.

Lemma encode_latin1_ok text : latin1 text -> encode_latin1 text = Ok text.
Proof.
  induction 1 as [| c text Hc _ IH]; [done |].
  cbn [encode_latin1]. apply N.ltb_lt in Hc as ->. by rewrite IH.
Qed.

Lemma split_blank_from_cons cur c rest :
  split_blank_from cur (c :: rest) =
    match rest with
    | c' :: rest' =>
        if (c =? 10) && (c' =? 10) then rev cur :: split_blank_from [] rest'
        else split_blank_from (c :: cur) rest
    | [] => split_blank_from (c :: cur) rest
    end.
Proof. reflexivity. Qed.

Lemma join_blank_cons (p : list N) ps :
  join [10; 10] (p :: ps) = p ++ match ps with [] => [] | _ :: _ => [10; 10] ++ join [10; 10] ps end.
Proof. destruct ps; cbn [join]; by rewrite ?app_nil_r. Qed.

Lemma split_blank_from_nonempty text : forall cur, split_blank_from cur text <> [].
Proof.
  induction text as [| c | c c' rest IH1 IH2] using list_ind2; intros cur; [done | done |].
  rewrite split_blank_from_cons. destruct (_ && _); [done | apply IH2].
Qed.

(** Joining the paragraphs with a blank line gives the text back. *)
Lemma join_split_blank_from text :
  forall cur, join [10; 10] (split_blank_from cur text) = rev cur ++ text.
Proof.
  induction text as [| c | c c' rest IH1 IH2] using list_ind2; intros cur.
  - cbn. by rewrite app_nil_r.
  - reflexivity.
  - rewrite split_blank_from_cons. destruct ((c =? 10) && (c' =? 10)) eqn:E.
    + apply andb_true_iff in E as [->%N.eqb_eq ->%N.eqb_eq].
      rewrite join_blank_cons, IH1. cbn [rev app].
      by destruct (split_blank_from [] rest) eqn:Es; [apply split_blank_from_nonempty in Es |].
    + rewrite IH2. cbn [rev]. by rewrite <- app_assoc.
Qed.

Section WithLibraries.
Context `{Unicode} `{Libraries}.

Lemma lower_ascii s : forallb is_ascii s = true -> lower s = map ascii_lower s.
Proof. unfold lower. by intros ->. Qed.

Lemma ascii_lower_ascii s : forallb is_ascii s = true -> forallb is_ascii (map ascii_lower s) = true.
Proof.
  induction s as [| c s IH]; [done |]. cbn [forallb map].
  intros [Hc Hs]%andb_true_iff. rewrite IH by done.
  unfold is_ascii, ascii_lower in *. destruct ((65 <=? c) && (c <=? 90)) eqn:E; [| by rewrite Hc].
  apply andb_true_iff. split; [| done]. apply N.ltb_lt. nbool. lia.
Qed.

(** The format that [generate_resume_bytes] dispatches on. *)
Lemma generate_resume_bytes_same text fmt fmt' :
  lower (or_else fmt (py "pdf")) = lower (or_else fmt' (py "pdf")) ->
  generate_resume_bytes text fmt = generate_resume_bytes text fmt'.
Proof. unfold generate_resume_bytes. by intros ->. Qed.

Lemma generate_txt text :
  generate_resume_bytes text (py "txt")
  = bind (encode_utf8 text)
         (fun b => Ok (b, py "text/plain; charset=utf-8", py "resume.txt")).
Proof.
  unfold generate_resume_bytes.
  assert (lower (or_else (py "txt") (py "pdf")) = py "txt") as ->
    by (vm_compute; reflexivity).
  rewrite bool_decide_eq_false_2 by (vm_compute; discriminate).
  rewrite bool_decide_eq_true_2 by reflexivity.
  by rewrite or_else_nil.
Qed.

Lemma generate_docx_missing text :
  _DOCX_AVAILABLE = false ->
  generate_resume_bytes text (py "docx")
  = Raise (RuntimeError (py "DOCX export requires python-docx. Please install it.")).
Proof.
  intros Hd. unfold generate_resume_bytes.
  assert (lower (or_else (py "docx") (py "pdf")) = py "docx") as ->
    by (vm_compute; reflexivity).
  rewrite !bool_decide_eq_false_2 by (vm_compute; discriminate).
  rewrite bool_decide_eq_true_2 by reflexivity.
  by rewrite Hd.
Qed.

End WithLibraries.

End ExportFacts.

(** ** Properties of the tokenizer and the extractor *)

Import Py Analyzer Float Matcher Exporter Advisor Api Spec Vocabulary.

(** X1.  Tokens and extracted skills do not depend on the case of the
    ASCII letters of the text. *)
Theorem extraction_ignores_case `{Unicode} (text : str) :
  _normalize (map ascii_lower text) = _normalize text
  /\ _extract_skills (map ascii_lower text) = _extract_skills text.
Proof.
  assert (tokenize (map ascii_lower text) = tokenize text) as Ht.
  { rewrite !TokenFacts.tokenize_pieces. unfold WORD_SPLIT_RE_split.
    pose proof (TokenFacts.split_from_lower false [] text) as Hs.
    change (map ascii_lower []) with (@nil N) in Hs. rewrite Hs.
    rewrite (TokenFacts.filter_map_ext (map ascii_lower)
               (fun t => truthy t = true) (fun t => truthy t = true))
      by (intros t; by destruct t).
    rewrite map_map. apply map_ext. intros t. rewrite map_map. apply map_ext.
    apply TokenFacts.ascii_lower_idem. }
  assert (_normalize (map ascii_lower text) = _normalize text) as Hn
    by (unfold _normalize; by rewrite Ht).
  split; [exact Hn |]. unfold _extract_skills. by rewrite Hn.
Qed.

(** X2.  A text without any character of [[a-zA-Z0-9+#]] (empty,
    blank, punctuation only) has no token and no skill. *)
Theorem no_word_no_tokens `{Unicode} (text : str) :
  forallb (fun c => negb (is_word_char c)) text = true ->
  _normalize text = [] /\ _extract_skills text = ∅.
Proof.
  intros Ht. assert (tokenize text = []) as Hk.
  { rewrite TokenFacts.tokenize_pieces. unfold WORD_SPLIT_RE_split.
    pose proof (TokenFacts.split_from_delimiters false text Ht) as Hp.
    induction Hp as [| t ts -> _ IH]; [done |].
    by rewrite filter_cons_False. }
  assert (_normalize text = []) as Hn by (unfold _normalize; by rewrite Hk).
  split; [exact Hn |]. unfold _extract_skills. by rewrite Hn.
Qed.

Lemma no_word_no_tokens_witness :
  forallb (fun c => negb (is_word_char c)) (py " -- , ;") = true
  /\ @_normalize ascii_tables (py " -- , ;") = [].
Proof.
  split; [reflexivity |].
  apply (@no_word_no_tokens ascii_tables (py " -- , ;")). reflexivity.
Defined.

(** X3.  Every normalized token is either a piece, that is a non-empty
    run of lowercase letters, digits, "+" and "#" without any space, or
    an entry of the vocabulary made of two pieces with one space between
    them. *)
Theorem normalized_tokens_shape `{Unicode} (text : str) :
  Forall (fun t => piece t \/ merged_pair t) (_normalize text).
Proof.
  rewrite AnalyzerFacts._normalize_merge_pairs.
  apply TokenFacts.merge_pairs_shape, TokenFacts.tokenize_piece.
Qed.

(** X4.  The merge loop only groups neighbours: joined with spaces, the
    normalized tokens spell the same text as the tokens before merging,
    and there are no more of them. *)
Theorem merge_keeps_text `{Unicode} (text : str) :
  join (py " ") (_normalize text) = join (py " ") (tokenize text)
  /\ (length (_normalize text) <= length (tokenize text))%nat.
Proof.
  rewrite AnalyzerFacts._normalize_merge_pairs.
  split; [apply TokenFacts.join_merge_pairs | apply TokenFacts.merge_pairs_length].
Qed.

(** ** Properties of [analyze_resume] *)

(** X5.  The missing skills are sorted, without repetition, and are
    exactly the job skills that are not resume skills. *)
Theorem missing_skills_sorted_difference `{Unicode} (resume_text job_description : str) :
  exists r,
    analyze_resume resume_text job_description = Ok r
    /\ Sorted str_le (missing_skills r) /\ NoDup (missing_skills r)
    /\ forall x, x ∈ missing_skills r
                 <-> x ∈ _extract_skills job_description /\ x ∉ _extract_skills resume_text.
Proof.
  destruct (MatcherFacts.match_of_ok resume_text job_description)
    as (k & missing & Hk & Hm).
  destruct (MatcherFacts.analyze_resume_shape _ _ _ _ Hm) as (advice & ->).
  eexists. split; [reflexivity |]. cbn [missing_skills].
  rewrite (AnalysisFacts.match_of_missing _ _ _ _ Hm).
  destruct (AnalysisFacts.sorted_list_spec
              (_extract_skills job_description ∖ _extract_skills resume_text))
    as (Hs & Hd & Hin).
  split; [done |]. split; [done |]. intros x. by rewrite Hin, elem_of_difference.
Qed.

(** X6.  There is always at least one suggestion and at most four; a
    match below 60 puts the advice to quantify achievements first, and
    missing skills are always named in a suggestion. *)
Theorem suggestions_never_empty `{Unicode} (resume_text job_description : str) :
  exists r,
    analyze_resume resume_text job_description = Ok r
    /\ suggestions r <> []
    /\ (length (suggestions r) <= 4)%nat
    /\ (ltb (match_percent r) 60 = true -> head (suggestions r) = Some msg_quantify)
    /\ (missing_skills r <> [] -> In (msg_consider (missing_skills r)) (suggestions r)).
Proof.
  destruct (MatcherFacts.match_of_ok resume_text job_description)
    as (k & missing & Hk & Hm).
  destruct (AnalysisFacts.analyze_resume_advice _ _ _ _ Hm)
    as (r & Hr & <- & <- & _ & H1 & H2 & H3 & H4).
  by exists r.
Qed.

Lemma suggestions_never_empty_witness :
  exists r,
    @analyze_resume ascii_tables (py "Flask and SQL") (py "AWS, Docker") = Ok r
    /\ ltb (match_percent r) 60 = true /\ missing_skills r <> []
    /\ head (suggestions r) = Some msg_quantify
    /\ In (msg_consider (missing_skills r)) (suggestions r).
Proof.
  destruct (@suggestions_never_empty ascii_tables (py "Flask and SQL") (py "AWS, Docker"))
    as (r & Hr & _ & _ & Hlow & Hmiss).
  assert (ltb (match_percent r) 60 = true /\ missing_skills r <> []) as [H1 H2].
  { vm_compute in Hr. injection Hr as <-. split; [reflexivity | discriminate]. }
  exists r. split; [exact Hr |]. split; [exact H1 |]. split; [exact H2 |].
  split; [exact (Hlow H1) | exact (Hmiss H2)].
Defined.

(** X7.  The ATS score lies between 0 and 100. *)
Theorem ats_score_range `{Unicode} (resume_text job_description : str) :
  exists r,
    analyze_resume resume_text job_description = Ok r
    /\ (0 <= ats_score r)%Q /\ (ats_score r <= 100)%Q.
Proof.
  destruct (MatcherFacts.match_of_ok resume_text job_description)
    as (k & missing & Hk & Hm).
  destruct (MatcherFacts.analyze_resume_shape _ _ _ _ Hm) as (advice & ->).
  eexists. split; [reflexivity |]. cbn [ats_score].
  apply AnalysisFacts.round1_range; apply AnalysisFacts.clamp_range.
Qed.

(** X8.  When the job description has recognized skills and the resume
    has all of them, the match is 100.0, nothing is missing and the ATS
    score is 100.0. *)
Theorem full_coverage `{Unicode} (resume_text job_description : str) :
  _extract_skills job_description <> ∅ ->
  _extract_skills job_description ⊆ _extract_skills resume_text ->
  exists r,
    analyze_resume resume_text job_description = Ok r
    /\ match_percent r = 100%Q /\ missing_skills r = [] /\ ats_score r = 100%Q.
Proof.
  intros Hne Hsub.
  pose proof (AnalysisFacts.match_of_covered _ _ Hne Hsub) as Hm.
  destruct (MatcherFacts.analyze_resume_shape _ _ _ _ Hm) as (advice & ->).
  eexists. split; [reflexivity |]. cbn [match_percent missing_skills ats_score].
  split; [reflexivity |]. split; [reflexivity |]. vm_compute. reflexivity.
Qed.

Lemma full_coverage_witness :
  exists r,
    @analyze_resume ascii_tables (py "Python, Redis and Docker") (py "docker + python") = Ok r
    /\ match_percent r = 100%Q /\ missing_skills r = [] /\ ats_score r = 100%Q.
Proof.
  apply (@full_coverage ascii_tables (py "Python, Redis and Docker") (py "docker + python")).
  - intros E. apply (f_equal (fun s : gset (list N) => bool_decide (py "python" ∈ s))) in E.
    vm_compute in E. discriminate.
  - apply (bool_decide_unpack _). vm_compute. exact I.
Defined.

(** X9.  When the job description has recognized skills and the resume
    has none of them, the match and the ATS score are 0.0 and all job
    skills are missing. *)
Theorem no_common_skill `{Unicode} (resume_text job_description : str) :
  _extract_skills job_description <> ∅ ->
  _extract_skills resume_text ∩ _extract_skills job_description = ∅ ->
  exists r,
    analyze_resume resume_text job_description = Ok r
    /\ match_percent r = 0%Q
    /\ (forall x, x ∈ missing_skills r <-> x ∈ _extract_skills job_description)
    /\ ats_score r = 0%Q.
Proof.
  intros Hne Hdis.
  pose proof (AnalysisFacts.match_of_disjoint _ _ Hne Hdis) as Hm.
  destruct (MatcherFacts.analyze_resume_shape _ _ _ _ Hm) as (advice & ->).
  eexists. split; [reflexivity |]. cbn [match_percent missing_skills ats_score].
  split; [reflexivity |]. split; [apply AnalysisFacts.sorted_list_spec |].
  pose proof (AnalysisFacts.penalty_nonneg
                (sorted_list (_extract_skills job_description))) as Hp.
  set (penalty := py_min 30 _) in *. clearbody penalty.
  assert (0 - penalty <= 0)%Q as Hz by lra.
  pose proof (FloatFacts.fl_nonpos (0 - penalty) Hz) as Hy. fold (fsub 0 penalty) in Hy.
  destruct (FloatFacts.py_min_spec 100 (fsub 0 penalty)) as [[_ ->] | [? _]]; [| lra].
  destruct (FloatFacts.py_max_spec 0 (fsub 0 penalty)) as [[? _] | [_ ->]]; [lra |].
  vm_compute. reflexivity.
Qed.

Lemma no_common_skill_witness :
  exists r,
    @analyze_resume ascii_tables (py "Flask and SQL") (py "AWS, Docker") = Ok r
    /\ match_percent r = 0%Q
    /\ (forall x, x ∈ missing_skills r <-> x ∈ @_extract_skills ascii_tables (py "AWS, Docker"))
    /\ ats_score r = 0%Q.
Proof.
  apply (@no_common_skill ascii_tables (py "Flask and SQL") (py "AWS, Docker")).
  - intros E. apply (f_equal (fun s : gset (list N) => bool_decide (py "aws" ∈ s))) in E.
    vm_compute in E. discriminate.
  - vm_compute. reflexivity.
Defined.

(** ** Properties of the growth path and the cover letter *)

(** X10.  The growth path has between one and five entries; without any
    of the eight skills its rules look for, it is the generic three-step
    path. *)
Theorem growth_path_size `{Unicode} (resume_text : str) :
  (1 <= length (suggest_growth_path resume_text) <= 5)%nat
  /\ ((forall s, In s (map py ["fastapi"; "flask"; "python"; "aws"; "gcp"; "azure";
                               "nlp"; "machine learning"]%string)
                 -> s ∉ _extract_skills resume_text)
      -> suggest_growth_path resume_text = path_generic).
Proof.
  unfold suggest_growth_path. cbv zeta. split.
  - destruct (_ || _), (bool_decide (py "python" ∈ _)), (_ || _ || _), (_ || _);
      cbn; lia.
  - intros Hnone.
    rewrite !bool_decide_eq_false_2 by (apply Hnone; cbn; tauto).
    reflexivity.
Qed.

Lemma growth_path_size_witness :
  (forall s, In s (map py ["fastapi"; "flask"; "python"; "aws"; "gcp"; "azure";
                           "nlp"; "machine learning"]%string)
             -> s ∉ @_extract_skills ascii_tables (py "Chef, 10 years"))
  /\ @suggest_growth_path ascii_tables (py "Chef, 10 years") = path_generic.
Proof.
  assert (forall s, In s (map py ["fastapi"; "flask"; "python"; "aws"; "gcp"; "azure";
                                  "nlp"; "machine learning"]%string)
                    -> s ∉ @_extract_skills ascii_tables (py "Chef, 10 years")) as Hnone.
  { assert (@_extract_skills ascii_tables (py "Chef, 10 years") = ∅) as ->
      by (vm_compute; reflexivity).
    intros s _. apply not_elem_of_empty. }
  split; [exact Hnone |].
  exact (proj2 (@growth_path_size ascii_tables (py "Chef, 10 years")) Hnone).
Defined.


(** ** Properties of [optimize_resume] *)

(** X12.  The lines of an optimised resume are the two header lines
    followed by one bullet line per non-blank input line; every bullet
    line starts with "-" and has no whitespace at either end. *)
Theorem optimize_resume_lines (text : str) :
  splitlines (optimize_resume text)
  = py "SUMMARY" :: py "Results-driven professional with measurable achievements."
    :: map bulletize (nonblank_lines text)
  /\ Forall (fun l => startswith l (py "-") = true /\ strip l = l /\ l <> [])
            (map bulletize (nonblank_lines text)).
Proof.
  split; [apply BulletFacts.optimized_lines |].
  eapply Forall_impl; [apply BulletFacts.body_bullets |]. by intros l (? & [? ?] & _).
Qed.

(** X13.  For every text, a second application leaves the bullet lines
    of the first result unchanged, turns its two header lines into
    bullets and prepends a new header. *)
Theorem optimize_resume_twice_any (text : str) :
  optimize_resume (optimize_resume text)
  = header ++ join [10]
      (py "- SUMMARY"
       :: py "- Results-driven professional with measurable achievements."
       :: map bulletize (nonblank_lines text)).
Proof.
  rewrite (OptimizerFacts.optimize_resume_eq (optimize_resume text)), PyFacts.or_else_nil.
  unfold nonblank_lines at 1. rewrite BulletFacts.optimized_lines.
  unfold summary_line, pitch_line.
  rewrite !filter_cons_True by (vm_compute; reflexivity).
  cbn [map]. rewrite BulletFacts.bullets_fixed by apply BulletFacts.body_bullets.
  reflexivity.
Qed.

(** ** Properties of the exporter *)

(** X14.  [_to_latin1] keeps the length, leaves Latin-1 text unchanged,
    and its result is always Latin-1: encoding it never fails, and
    applying it again changes nothing. *)
Theorem to_latin1_safe (text : str) :
  length (_to_latin1 text) = length text
  /\ latin1 (_to_latin1 text)
  /\ encode_latin1 (_to_latin1 text) = Ok (_to_latin1 text)
  /\ _to_latin1 (_to_latin1 text) = _to_latin1 text
  /\ (latin1 text -> _to_latin1 text = text).
Proof.
  pose proof (ExportFacts._to_latin1_latin1 text) as Hl.
  split; [apply length_map |]. split; [done |].
  split; [by apply ExportFacts.encode_latin1_ok |].
  split; [by apply ExportFacts._to_latin1_fix | apply ExportFacts._to_latin1_fix].
Qed.

Lemma to_latin1_safe_witness :
  latin1 [74; 111; 115; 233] /\ _to_latin1 [74; 111; 115; 233] = [74; 111; 115; 233].
Proof.
  assert (latin1 [74; 111; 115; 233]) as Hl by (repeat constructor).
  split; [exact Hl |].
  exact (proj2 (proj2 (proj2 (proj2 (to_latin1_safe [74; 111; 115; 233])))) Hl).
Defined.

(** X15.  Splitting at blank lines loses nothing: there is always at
    least one paragraph, and the paragraphs joined by "\n\n" are the
    text. *)
Theorem split_blank_join (text : str) :
  split_blank text <> [] /\ join [10; 10] (split_blank text) = text.
Proof.
  split; [apply ExportFacts.split_blank_from_nonempty |].
  apply (ExportFacts.join_split_blank_from text []).
Qed.

(** X16.  [generate_resume_pdf] draws the calls of [pdf_calls] and
    encodes the library's output; every text it passes to the PDF object
    is within Latin-1, and an empty resume is drawn as the single
    paragraph "(No content provided)". *)
Theorem pdf_calls_latin1 `{Unicode} `{Libraries} (resume_text : str) :
  generate_resume_pdf resume_text = bind (fpdf_output (pdf_calls resume_text)) encode_latin1
  /\ Forall (fun call => Forall latin1 (fpdf_text call)) (pdf_calls resume_text)
  /\ flat_map (fun call => match call with multi_cell _ _ txt => [txt] | _ => [] end)
              (pdf_calls [])
     = [py "(No content provided)"].
Proof.
  split; [reflexivity |]. split; [| vm_compute; reflexivity].
  unfold pdf_calls. apply Forall_app. split.
  - repeat constructor; cbn; repeat constructor;
      try apply ExportFacts._to_latin1_latin1; unfold latin1;
      apply Forall_forall; intros c Hc%list_elem_of_In;
      repeat (destruct Hc as [<- | Hc]; [done |]); done.
  - pose proof (ExportFacts._to_latin1_latin1
                  (or_else resume_text (py "(No content provided)"))) as Hl.
    revert Hl. generalize (_to_latin1 (or_else resume_text (py "(No content provided)"))).
    intros safe Hl.
    pose proof (ExportFacts.join_split_blank_from safe []) as Hj. cbn [rev app] in Hj.
    assert (Forall latin1 (split_blank safe)) as Hp.
    { unfold split_blank. rewrite <- Hj in Hl. revert Hl.
      generalize (split_blank_from [] safe). intros ps.
      induction ps as [| p ps IH]; [constructor |].
      rewrite ExportFacts.join_blank_cons. intros [Hp Hr]%Forall_app.
      constructor; [done |]. destruct ps; [constructor |].
      apply IH. by apply Forall_app in Hr as [_ ?]. }
    induction Hp as [| p ps Hp _ IH]; [constructor |].
    cbn [flat_map app]. constructor; [by repeat constructor |].
    constructor; [constructor | exact IH].
Qed.

(** X17.  The format is matched without regard to the case of ASCII
    letters, and an empty format means "pdf". *)
Theorem format_case_insensitive `{Unicode} `{Libraries} (text fmt : str) :
  forallb is_ascii fmt = true ->
  generate_resume_bytes text fmt = generate_resume_bytes text (map ascii_lower fmt)
  /\ generate_resume_bytes text [] = generate_resume_bytes text (py "pdf").
Proof.
  intros Ha. split; [| reflexivity].
  apply ExportFacts.generate_resume_bytes_same.
  destruct fmt as [| c fmt]; [reflexivity |].
  change (or_else (c :: fmt) (py "pdf")) with (c :: fmt).
  change (or_else (map ascii_lower (c :: fmt)) (py "pdf")) with (map ascii_lower (c :: fmt)).
  rewrite !ExportFacts.lower_ascii by (try apply ExportFacts.ascii_lower_ascii; done).
  rewrite map_map. apply map_ext. intros a. by rewrite TokenFacts.ascii_lower_idem.
Qed.

Lemma format_case_insensitive_witness :
  forallb is_ascii (py "TxT") = true
  /\ @generate_resume_bytes ascii_tables without_docx (py "Jane") (py "TxT")
     = @generate_resume_bytes ascii_tables without_docx (py "Jane") (py "txt").
Proof.
  split; [reflexivity |].
  apply (@format_case_insensitive ascii_tables without_docx (py "Jane") (py "TxT")).
  reflexivity.
Defined.

(** X18.  Whenever [generate_resume_bytes] returns, the media type and
    the file name are those of the requested format, and a "docx" result
    means that the authoring library is installed. *)
Theorem export_names_match_format `{Unicode} `{Libraries}
    (text fmt : str) (b : bytes) (media_type filename : str) :
  generate_resume_bytes text fmt = Ok (b, media_type, filename) ->
  let requested := lower (or_else fmt (py "pdf")) in
  (requested = py "pdf" /\ media_type = py "application/pdf"
   /\ filename = py "resume.pdf")
  \/ (requested = py "txt" /\ media_type = py "text/plain; charset=utf-8"
      /\ filename = py "resume.txt")
  \/ (requested = py "docx" /\ _DOCX_AVAILABLE = true
      /\ media_type = docx_media_type /\ filename = py "resume.docx").
Proof.
  unfold generate_resume_bytes. cbv zeta.
  repeat case_bool_decide.
  - destruct (generate_resume_pdf text); [| discriminate]. cbn [bind].
    intros [= _ <- <-]. by left.
  - destruct (encode_utf8 _); [| discriminate]. cbn [bind].
    intros [= _ <- <-]. right. by left.
  - destruct _DOCX_AVAILABLE; [| discriminate]. cbn [negb].
    destruct (docx_save _); [| discriminate]. cbn [bind].
    intros [= _ <- <-]. right. by right.
  - discriminate.
Qed.

Lemma export_names_match_format_witness :
  @generate_resume_bytes ascii_tables without_docx (py "Jane") (py "TXT")
  = Ok ([74; 97; 110; 101], py "text/plain; charset=utf-8", py "resume.txt")
  /\ @lower ascii_tables (or_else (py "TXT") (py "pdf")) = py "txt".
Proof.
  assert (@generate_resume_bytes ascii_tables without_docx (py "Jane") (py "TXT")
          = Ok ([74; 97; 110; 101], py "text/plain; charset=utf-8", py "resume.txt")) as E
    by (vm_compute; reflexivity).
  split; [exact E |].
  destruct (@export_names_match_format ascii_tables without_docx _ _ _ _ _ E)
    as [(_ & Hm & _) | [(Hr & _) | (_ & Hd & _)]]; [| exact Hr |]; discriminate.
Defined.

(** ** Properties of the request handlers *)

Module ApiFacts.
Import Py Float Matcher Api Spec Vocabulary FloatFacts.
#[local] Open Scope Z_scope.
#[local] Open Scope Q_scope.

Lemma ltb_lt a b : ltb a b = true <-> a < b.
Proof.
  unfold ltb. destruct (Qcompare a b) eqn:E; qcompare_hyps; split; try done; intros; lra.
Qed.

(** The size test of [upload_resume] is exact: more than ten times
    [1024 * 1024] bytes. *)
Lemma size_over_limit (n : Z) :
  (0 <= n)%Z ->
  (ltb (inject_Z MAX_PDF_SIZE_MB) (fl (inject_Z n / inject_Z (1024 * 1024))) = true
   <-> (10485760 < n)%Z).
Proof.
  intros Hn. rewrite ltb_lt. change (inject_Z MAX_PDF_SIZE_MB) with 10.
  change (inject_Z (1024 * 1024)) with 1048576.
  rewrite (Zle_Qle 0) in Hn. change (inject_Z 0) with 0 in Hn.
  assert (fl 10 = 10) as F10 by (vm_compute; reflexivity).
  assert (fl (10485761 # 1048576) = 10485761 # 1048576) as Fc by (vm_compute; reflexivity).
  split.
  - intros Hlt. apply Z.lt_nge. intros Hle.
    rewrite Zle_Qle in Hle. change (inject_Z 10485760) with 10485760 in Hle.
    assert (fl (inject_Z n / 1048576) <= fl 10) as Hm.
    { apply fl_mono; [apply Qle_shift_div_l; lra | apply Qle_shift_div_r; lra]. }
    rewrite F10 in Hm. lra.
  - intros Hlt. assert (10485761 <= n)%Z as Hle by lia.
    rewrite Zle_Qle in Hle. change (inject_Z 10485761) with 10485761 in Hle.
    assert (fl (10485761 # 1048576) <= fl (inject_Z n / 1048576)) as Hm.
    { apply fl_mono; [vm_compute; discriminate |].
      apply Qle_shift_div_l; [lra |].
      assert ((10485761 # 1048576) * 1048576 == 10485761) as -> by reflexivity. done. }
    rewrite Fc in Hm.
    assert (10 < 10485761 # 1048576) by reflexivity. lra.
Qed.

End ApiFacts.

(** ** Rendering of the JSON bodies *)

Module RenderFacts.
Import Py Analyzer Float Matcher Exporter Advisor Api Spec Vocabulary PyFacts.

Lemma ascii_scalar s : forallb is_ascii s = true -> scalar s.
Proof.
  unfold scalar. rewrite !forallb_forall. intros Hs c Hc. specialize (Hs c Hc).
  unfold is_ascii, is_scalar in *. apply orb_true_iff. left. nbool. apply N.ltb_lt. lia.
Qed.

Lemma scalar_app s t : scalar s -> scalar t -> scalar (s ++ t).
Proof. unfold scalar. rewrite forallb_app. by intros -> ->. Qed.

Lemma scalar_concat texts : Forall scalar texts -> scalar (concat texts).
Proof.
  induction 1 as [| t texts Ht _ IH]; [done |]. cbn [concat]. by apply scalar_app.
Qed.

Lemma scalar_concat_inv texts : scalar (concat texts) -> Forall scalar texts.
Proof.
  unfold scalar. induction texts as [| t texts IH]; [constructor |].
  cbn [concat]. rewrite forallb_app. intros [Ht Hr]%andb_true_iff.
  constructor; [done | by apply IH].
Qed.

Lemma scalar_join sep parts : scalar sep -> Forall scalar parts -> scalar (join sep parts).
Proof.
  intros Hsep. induction 1 as [| p ps Hp Hps IH]; [done |].
  destruct ps as [| q qs]; [done |]. rewrite TokenFacts.join_cons.
  by repeat apply scalar_app.
Qed.

(** The constructor returns the body when all its texts are encodable,
    and raises otherwise. *)
Lemma JSONResponse_init_ok body :
  Forall scalar (body_texts body) -> JSONResponse_init body = Ok (Json body).
Proof.
  intros Ht%scalar_concat. unfold JSONResponse_init.
  destruct (ExporterFacts.encode_utf8_scalar _ Ht) as [b Hb].
  fold (body_texts body). by rewrite Hb.
Qed.

Lemma JSONResponse_init_raise body :
  ~ Forall scalar (body_texts body) -> JSONResponse_init body = Raise UnicodeEncodeError.
Proof.
  intros Hn. unfold JSONResponse_init. fold (body_texts body).
  rewrite ExporterFacts.encode_utf8_raise; [done |].
  destruct (forallb is_scalar (concat (body_texts body))) eqn:E; [| done].
  exfalso. by apply Hn, scalar_concat_inv.
Qed.

Lemma refusal_ok msg : scalar msg -> json_response false msg None = Ok (Json (refusal msg)).
Proof. intros Hm. apply JSONResponse_init_ok. by repeat constructor. Qed.

Lemma exn_text_scalar `{ExnText} e : scalar (builtin_exn_text e).
Proof. apply ascii_scalar, builtin_exn_text_ascii. Qed.

(** Every entry of the vocabulary is ASCII. *)
Lemma known_skill_scalar x : x ∈ KNOWN_SKILLS -> scalar x.
Proof.
  intros Hx%elem_of_elements. revert x Hx. apply Forall_forall.
  apply (bool_decide_unpack _). vm_compute. exact I.
Qed.

Lemma msg_consider_scalar missing : Forall scalar missing -> scalar (msg_consider missing).
Proof.
  intros Hm. unfold msg_consider. apply scalar_app; [reflexivity |].
  apply scalar_join; [reflexivity |]. by apply Forall_take.
Qed.

Section WithUnicode.
Context `{Unicode}.

(** The texts of an analysis are encodable: skills and fixed advice. *)
Lemma analysis_texts_scalar resume_text job_description result :
  analyze_resume resume_text job_description = Ok result ->
  Forall scalar (missing_skills result ++ suggestions result).
Proof.
  destruct (MatcherFacts.match_of_ok resume_text job_description)
    as (k & missing & _ & Hm).
  assert (Forall scalar missing) as Hs.
  { rewrite (AnalysisFacts.match_of_missing _ _ _ _ Hm). apply Forall_forall.
    intros x Hx%AnalysisFacts.sorted_list_spec.
    apply elem_of_difference in Hx as [Hx%AnalyzerFacts._extract_skills_spec _].
    apply known_skill_scalar, Hx. }
  pose proof (msg_consider_scalar missing Hs) as Hc.
  unfold analyze_resume. unfold match_of in Hm. cbv zeta in *. rewrite Hm. cbn [bind].
  intros [= <-]. cbn [missing_skills suggestions]. apply Forall_app. split; [done |].
  destruct (ltb _ 60), (nonempty missing),
    (bool_decide (py "python" ∈ _) && _), (bool_decide (py "docker" ∈ _) && _);
    cbn [app nonempty]; repeat constructor; done.
Qed.

End WithUnicode.

(** *** The texts of the advice, the letter and the optimised resume *)

Lemma scalar_Forall s : scalar s <-> Forall (fun c => is_scalar c = true) s.
Proof. unfold scalar. by rewrite forallb_forall, Forall_forall; setoid_rewrite list_elem_of_In. Qed.

Lemma not_scalar_elem c s : c ∈ s -> is_scalar c = false -> forallb is_scalar s = false.
Proof.
  intros Hc Hn. destruct (forallb is_scalar s) eqn:E; [| done].
  apply scalar_Forall in E. rewrite Forall_forall in E. specialize (E c Hc). congruence.
Qed.

Lemma growth_path_scalar `{Unicode} resume_text :
  Forall scalar (suggest_growth_path resume_text).
Proof.
  unfold suggest_growth_path. cbv zeta.
  destruct (_ || _), (bool_decide (py "python" ∈ _)), (_ || _ || _), (_ || _);
    cbn [app nonempty]; repeat constructor.
Qed.

Lemma cover_letter_scalar `{Unicode} resume_text job_desc :
  scalar (generate_cover_letter_text resume_text job_desc).
Proof.
  unfold generate_cover_letter_text. cbv zeta.
  repeat (apply scalar_app; [try reflexivity |]); try reflexivity.
  destruct (nonempty _); [| reflexivity].
  apply scalar_join; [reflexivity |]. apply Forall_forall.
  intros x Hx%AnalysisFacts.sorted_list_spec.
  apply elem_of_intersection in Hx as [Hx%AnalyzerFacts._extract_skills_spec _].
  apply known_skill_scalar, Hx.
Qed.

Lemma bulletize_scalar l : scalar l -> scalar (bulletize l).
Proof.
  intros Hl. unfold bulletize. destruct (startswith l _); [done |].
  by apply scalar_app.
Qed.

(** An encodable resume has an encodable optimised form. *)
Lemma optimize_resume_scalar text : scalar text -> scalar (optimize_resume text).
Proof.
  intros Ht. rewrite OptimizerFacts.optimize_resume_eq, PyFacts.or_else_nil.
  apply scalar_app; [reflexivity |]. apply scalar_join; [reflexivity |].
  apply Forall_map, Forall_map, Forall_forall. intros l [_ Hl]%list_elem_of_filter.
  apply bulletize_scalar, scalar_Forall, AnalyzerFacts.strip_Forall.
  apply scalar_Forall in Ht.
  pose proof (OptimizerFacts.splitlines_from_Forall _ text [] ltac:(constructor) Ht) as Hs.
  rewrite Forall_forall in Hs. by apply Hs.
Qed.

(** A code point that is no scalar value is neither whitespace nor a
    line boundary: it survives the split and the trimming. *)
Lemma not_scalar_inline c :
  is_scalar c = false -> is_space c = false /\ is_linebreak c = false.
Proof.
  unfold is_scalar. intros [Hc _]%orb_false_iff. apply N.ltb_ge in Hc.
  unfold is_space, is_linebreak.
  split; repeat (apply orb_false_iff; split); try apply andb_false_iff;
    rewrite ?N.leb_gt, ?N.eqb_neq; lia.
Qed.

Lemma elem_of_rev (c : N) s : c ∈ rev s <-> c ∈ s.
Proof. rewrite !list_elem_of_In. symmetry. apply in_rev. Qed.

Lemma lstrip_keeps c s : is_space c = false -> c ∈ s -> c ∈ lstrip s.
Proof.
  intros Hc. induction s as [| d s IH]; [done |]. cbn [lstrip].
  destruct (is_space d) eqn:Ed; [| done].
  intros [-> | Hin]%elem_of_cons; [congruence | by apply IH].
Qed.

Lemma strip_keeps c s : is_space c = false -> c ∈ s -> c ∈ strip s.
Proof.
  intros Hc Hin. unfold strip, rstrip.
  by apply elem_of_rev, lstrip_keeps, elem_of_rev, lstrip_keeps.
Qed.

Lemma splitlines_from_keeps c s :
  is_linebreak c = false ->
  forall cur, c ∈ cur \/ c ∈ s -> exists l, l ∈ splitlines_from cur s /\ c ∈ l.
Proof.
  intros Hc. induction s as [| d | d d' rest IH1 IH2] using list_ind2; intros cur Hin.
  - destruct Hin as [Hin | Hin]; [| by apply elem_of_nil in Hin].
    destruct cur as [| x cur]; [by apply elem_of_nil in Hin |].
    exists (rev (x :: cur)). split; [apply list_elem_of_singleton; reflexivity |].
    by apply elem_of_rev.
  - cbn [splitlines_from]. destruct (is_linebreak d) eqn:Ed.
    + exists (rev cur). split; [left |]. apply elem_of_rev.
      destruct Hin as [Hin | [-> | Hin%elem_of_nil]%elem_of_cons]; [done | congruence | done].
    + exists (rev (d :: cur)). split; [left |]. apply elem_of_rev.
      destruct Hin as [Hin | [-> | Hin%elem_of_nil]%elem_of_cons];
        [by right | by left | done].
  - rewrite OptimizerFacts.splitlines_from_cons. destruct (is_linebreak d) eqn:Ed.
    + destruct Hin as [Hin | [-> | Hin]%elem_of_cons]; [| congruence |].
      { exists (rev cur). split; [left | by apply elem_of_rev]. }
      destruct ((d =? 13) && (d' =? 10)) eqn:Ecr.
      * apply andb_true_iff in Ecr as [_ Hd'%N.eqb_eq]. subst d'.
        apply elem_of_cons in Hin as [-> | Hin]; [discriminate |].
        destruct (IH1 [] (or_intror Hin)) as (l & Hl & Hcl).
        exists l. split; [by right | done].
      * destruct (IH2 [] (or_intror Hin)) as (l & Hl & Hcl).
        exists l. split; [by right | done].
    + apply IH2. destruct Hin as [Hin | [-> | Hin]%elem_of_cons];
        [left; by right | left; by left | by right].
Qed.

Lemma elem_of_join c (p : list N) sep parts : p ∈ parts -> c ∈ p -> c ∈ join sep parts.
Proof.
  intros Hp Hc. induction parts as [| q parts IH]; [by apply elem_of_nil in Hp |].
  destruct parts as [| r parts].
  - apply list_elem_of_singleton in Hp. by subst.
  - rewrite TokenFacts.join_cons. apply elem_of_cons in Hp as [-> | Hp].
    + apply elem_of_app. by left.
    + apply elem_of_app. right. apply elem_of_app. right. by apply IH.
Qed.

(** A resume that cannot be encoded has an optimised form that cannot
    be encoded either. *)
Lemma optimize_resume_not_scalar text :
  forallb is_scalar text = false -> forallb is_scalar (optimize_resume text) = false.
Proof.
  intros Ht.
  assert (exists c, c ∈ text /\ is_scalar c = false) as (c & Hin & Hc).
  { induction text as [| d text IH]; [discriminate |]. cbn [forallb] in Ht.
    destruct (is_scalar d) eqn:Ed.
    - destruct (IH Ht) as (c & ? & ?). exists c. split; [by right | done].
    - exists d. split; [by left | done]. }
  destruct (not_scalar_inline c Hc) as [Hsp Hlb].
  destruct (splitlines_from_keeps c text Hlb [] (or_intror Hin)) as (l & Hl & Hcl).
  pose proof (strip_keeps c l Hsp Hcl) as Hs.
  apply (not_scalar_elem c); [| done].
  rewrite OptimizerFacts.optimize_resume_eq, PyFacts.or_else_nil.
  apply elem_of_app. right.
  apply (elem_of_join c (bulletize (strip l))).
  - apply list_elem_of_fmap_2. unfold nonblank_lines. apply list_elem_of_fmap_2.
    apply list_elem_of_filter. split; [| exact Hl]. by destruct (strip l); [apply elem_of_nil in Hs |].
  - unfold bulletize. destruct (startswith _ _); [done |]. apply elem_of_app. by right.
Qed.

End RenderFacts.

(** ** Properties of the preference store *)

Module StoreFacts.
Import Py Analyzer Exporter Api Spec Vocabulary.

Lemma set_preferences_store prefs theme :
  (set_preferences prefs theme).1 = <[ py "theme" := theme ]> prefs.
Proof.
  unfold set_preferences. rewrite lookup_insert_eq. by destruct (json_response _ _ _).
Qed.

(** One request keeps the store a one-key dict. *)
Lemma post_preferences_dom prefs theme :
  dom prefs = ({[ py "theme" ]} : gset (list N)) ->
  dom (post_preferences prefs theme).1 = ({[ py "theme" ]} : gset (list N)).
Proof.
  intros Hd. unfold post_preferences. destruct (UserPrefRequest theme); [| done].
  rewrite set_preferences_store, dom_insert_L, Hd. set_solver.
Qed.

Lemma UserPrefRequest_spec theme :
  UserPrefRequest theme = if valid_theme theme then Some theme else None.
Proof. reflexivity. Qed.

Lemma valid_theme_scalar theme : valid_theme theme = true -> scalar theme.
Proof.
  unfold valid_theme. intros [Ht | Ht]%orb_true_iff;
    apply bool_decide_eq_true in Ht; by subst.
Qed.

Lemma post_preferences_theme prefs theme cur :
  prefs !! py "theme" = Some cur ->
  (post_preferences prefs theme).1 !! py "theme"
  = Some (if valid_theme theme then theme else cur).
Proof.
  intros Hc. unfold post_preferences. rewrite UserPrefRequest_spec.
  destruct (valid_theme theme); [| done].
  by rewrite set_preferences_store, lookup_insert_eq.
Qed.

Lemma foldl_post_preferences themes : forall prefs cur,
  prefs !! py "theme" = Some cur ->
  foldl (fun prefs theme => (post_preferences prefs theme).1) prefs themes !! py "theme"
  = Some (default cur (last (filter (fun t => valid_theme t = true) themes))).
Proof.
  induction themes as [| t themes IH]; intros prefs cur Hc; [done |].
  cbn [foldl]. rewrite (IH _ _ (post_preferences_theme prefs t cur Hc)).
  rewrite filter_cons. f_equal.
  destruct (decide (valid_theme t = true)) as [Hv | Hv].
  - rewrite Hv, last_cons. by destruct (last _).
  - by destruct (valid_theme t).
Qed.

End StoreFacts.

(** ** The upload handler *)

Module HandlerFacts.
Import Py Analyzer Float Matcher Exporter Api Spec Vocabulary RenderFacts.

Section WithEnvironment.
Context `{PdfLibrary} `{ExnText}.

(** The [except] branch of [upload_resume]: a refusal, unless the
    message of the exception cannot be encoded either. *)
Lemma read_failure exc :
  json_response false (py "Failed to read PDF: " ++ exn_message exc) None
  = if forallb is_scalar (exn_message exc)
    then Ok (Json (refusal (py "Failed to read PDF: " ++ exn_message exc)))
    else Raise UnicodeEncodeError.
Proof.
  destruct (forallb is_scalar (exn_message exc)) eqn:E.
  - apply refusal_ok, scalar_app; [reflexivity | exact E].
  - apply JSONResponse_init_raise. intros [Hm _]%Forall_cons. cbn [message] in Hm.
    unfold scalar in Hm. rewrite forallb_app, E, andb_false_r in Hm. discriminate.
Qed.

(** What the [try] statement gives, case by case. *)
Lemma read_pdf_cases file_bytes :
  read_pdf file_bytes
  = match PdfReader_pages file_bytes with
    | Ok pages =>
        let resume_text := strip (join [10] (page_texts pages)) in
        if negb (truthy resume_text)
        then Ok (Json (refusal
                         (py "Could not extract text from PDF. Please upload a text-based PDF.")))
        else if forallb is_scalar resume_text
        then Ok (Json {| success := true; message := py "Resume uploaded";
                         data := ResumeText resume_text; status_code := 200 |})
        else Ok (Json (refusal
                         (py "Failed to read PDF: " ++ builtin_exn_text UnicodeEncodeError)))
    | Raise exc =>
        if forallb is_scalar (exn_message exc)
        then Ok (Json (refusal (py "Failed to read PDF: " ++ exn_message exc)))
        else Raise UnicodeEncodeError
    end.
Proof.
  unfold read_pdf. destruct (PdfReader_pages file_bytes) as [pages | exc]; cbn [bind]; cbv zeta.
  - set (text := strip (join [10] (page_texts pages))).
    destruct (negb (truthy text)); [by rewrite refusal_ok |].
    destruct (forallb is_scalar text) eqn:E.
    + unfold json_response. rewrite JSONResponse_init_ok; [done |]. by repeat constructor.
    + unfold json_response at 1. rewrite JSONResponse_init_raise.
      * cbn [try_except]. rewrite read_failure. cbn [exn_message].
        by rewrite (exn_text_scalar UnicodeEncodeError).
      * intros [_ [Ht _]%Forall_cons]%Forall_cons. unfold scalar in Ht. congruence.
  - cbn [try_except]. apply read_failure.
Qed.

Lemma upload_resume_cases (ct : str) (file_bytes : bytes) :
  ct ∈ accepted_content_types -> file_bytes <> [] ->
  upload_resume (Some ct) file_bytes
  = if bool_decide (10485760 < int_len file_bytes)%Z
    then Ok (Json (refusal (py "PDF exceeds 10 MB")))
    else read_pdf file_bytes.
Proof.
  intros Hct Hne. unfold upload_resume.
  rewrite (bool_decide_eq_true_2 _ Hct). cbn [negb].
  destruct file_bytes as [| b bs]; [done |]. cbn [nonempty negb].
  unfold int_truediv. change ((1024 * 1024 =? 0)%Z) with false. cbn [bind].
  pose proof (ApiFacts.size_over_limit (int_len (b :: bs)) ltac:(unfold int_len; lia)) as Hs.
  case_bool_decide as Hlt.
  - apply Hs in Hlt. rewrite Hlt. reflexivity.
  - destruct (ltb _ _) eqn:E; [exfalso; by apply Hlt, Hs | done].
Qed.

Lemma read_pdf_not_size_error file_bytes :
  read_pdf file_bytes <> Ok (Json (refusal (py "PDF exceeds 10 MB"))).
Proof.
  rewrite read_pdf_cases. destruct (PdfReader_pages _) as [pages | exc]; cbv zeta.
  - destruct (negb _); [discriminate |]. destruct (forallb _ _); discriminate.
  - destruct (forallb _ _); discriminate.
Qed.

End WithEnvironment.

(** A page that holds a lone surrogate: the success answer cannot be
    rendered, and the handler answers with a refusal. *)
Example upload_lone_surrogate :
  @upload_resume surrogate_pdf no_exn_text (Some (py "application/pdf")) [37; 80; 68; 70]
  = Ok (Json (refusal (py "Failed to read PDF: "))).
Proof. vm_compute. reflexivity. Qed.

End HandlerFacts.

(** X19.  An upload of an accepted type that is not empty is refused
    with "PDF exceeds 10 MB" exactly when it has more than 10485760
    bytes: the rounding of the division does not move the limit. *)
Theorem upload_size_limit `{PdfLibrary} `{ExnText} (ct : str) (file_bytes : bytes) :
  ct ∈ accepted_content_types -> file_bytes <> [] ->
  (upload_resume (Some ct) file_bytes
   = Ok (Json {| success := false; message := py "PDF exceeds 10 MB";
                 data := NoData; status_code := 400 |})
   <-> (10 * 1024 * 1024 < int_len file_bytes)%Z).
Proof.
  intros Hct Hne. rewrite (HandlerFacts.upload_resume_cases ct file_bytes Hct Hne).
  change (10 * 1024 * 1024)%Z with 10485760%Z.
  case_bool_decide as Hlt; split; try done.
  intros E. by apply HandlerFacts.read_pdf_not_size_error in E.
Qed.

Lemma upload_size_limit_witness :
  py "application/pdf" ∈ accepted_content_types /\ [37; 80; 68; 70] <> []
  /\ (@upload_resume blank_pdf no_exn_text (Some (py "application/pdf")) [37; 80; 68; 70]
      = Ok (Json {| success := false; message := py "PDF exceeds 10 MB";
                    data := NoData; status_code := 400 |})
      <-> (10 * 1024 * 1024 < int_len [37; 80; 68; 70])%Z).
Proof.
  assert (py "application/pdf" ∈ accepted_content_types) as Hct
    by (apply (bool_decide_unpack _); vm_compute; exact I).
  assert ([37; 80; 68; 70] <> @nil N) as Hne by discriminate.
  split; [exact Hct |]. split; [exact Hne |].
  exact (@upload_size_limit blank_pdf no_exn_text _ _ Hct Hne).
Defined.

(** X20.  [upload_resume] answers with a JSON body whose status is 200
    on success and 400 otherwise: on success the body carries a
    non-empty text without outer whitespace and without surrogates, on
    failure no data.  The one other outcome is that it raises
    [UnicodeEncodeError]; then the PDF reader has raised an exception
    whose own message cannot be encoded. *)
Theorem upload_resume_answers `{PdfLibrary} `{ExnText}
    (content_type : option str) (file_bytes : bytes) :
  (exists j,
     upload_resume content_type file_bytes = Ok (Json j)
     /\ status_code j = (if success j then 200 else 400)%Z
     /\ (success j = true ->
         message j = py "Resume uploaded"
         /\ exists text,
              data j = ResumeText text /\ text <> [] /\ strip text = text
              /\ forallb is_scalar text = true)
     /\ (success j = false -> data j = NoData))
  \/ (upload_resume content_type file_bytes = Raise UnicodeEncodeError
      /\ exists exc,
           PdfReader_pages file_bytes = Raise exc
           /\ forallb is_scalar (exn_message exc) = false).
Proof.
  unfold upload_resume.
  destruct (negb match content_type with Some ct => _ | None => _ end);
    [left; eexists; split; [reflexivity |]; cbn; by repeat split |].
  destruct (negb (nonempty file_bytes));
    [left; eexists; split; [reflexivity |]; cbn; by repeat split |].
  unfold int_truediv. change ((1024 * 1024 =? 0)%Z) with false. cbn [bind].
  destruct (ltb _ _); [left; eexists; split; [reflexivity |]; cbn; by repeat split |].
  rewrite HandlerFacts.read_pdf_cases.
  destruct (PdfReader_pages file_bytes) as [pages | exc]; cbv zeta.
  - left. set (text := strip (join [10] (page_texts pages))).
    assert (strip text = text) as Hstrip by (subst text; apply StripFacts.strip_idem).
    destruct text as [| c text'] eqn:E; cbn [truthy negb];
      [eexists; split; [reflexivity |]; cbn; by repeat split |].
    destruct (forallb is_scalar (c :: text')) eqn:Es;
      [| eexists; split; [reflexivity |]; cbn; by repeat split].
    eexists. split; [reflexivity |]. cbn [success status_code message data].
    split; [done |]. split; [| done]. intros _. split; [done |].
    by exists (c :: text').
  - destruct (forallb is_scalar (exn_message exc)) eqn:Es.
    + left. eexists. split; [reflexivity |]. cbn. by repeat split.
    + right. split; [done |]. by exists exc.
Qed.

Lemma upload_resume_answers_witness :
  exists j,
    @upload_resume text_pdf no_exn_text (Some (py "application/pdf")) (py " Jane Doe ")
    = Ok (Json j)
    /\ success j = true /\ status_code j = 200%Z
    /\ message j = py "Resume uploaded"
    /\ exists text,
         data j = ResumeText text /\ text <> [] /\ strip text = text
         /\ forallb is_scalar text = true.
Proof.
  destruct (@upload_resume_answers text_pdf no_exn_text
              (Some (py "application/pdf")) (py " Jane Doe "))
    as [(j & Hj & Hs & Hok & _) | [Hr _]].
  - assert (success j = true) as H1.
    { vm_compute in Hj. injection Hj as <-. reflexivity. }
    exists j. split; [exact Hj |]. split; [exact H1 |].
    split; [rewrite Hs, H1; reflexivity | exact (Hok H1)].
  - vm_compute in Hr. discriminate.
Defined.

(** X21.  The handler of /analyze never takes its error branch: it
    always answers "Analysis complete" with status 200 and the result of
    [analyze_resume]. *)
Theorem analyze_always_completes `{Unicode} `{ExnText} (resume job_desc : str) :
  exists result,
    analyze_resume resume job_desc = Ok result
    /\ analyze resume job_desc
       = Ok (Json {| success := true; message := py "Analysis complete";
                     data := Analysis result; status_code := 200 |}).
Proof.
  destruct (MatcherFacts.match_of_ok resume job_desc) as (k & missing & _ & Hm).
  destruct (MatcherFacts.analyze_resume_shape _ _ _ _ Hm) as (advice & E).
  eexists. split; [exact E |]. unfold analyze. rewrite E. cbn [bind].
  unfold json_response. rewrite RenderFacts.JSONResponse_init_ok; [done |].
  constructor; [reflexivity |]. apply (RenderFacts.analysis_texts_scalar _ _ _ E).
Qed.

(** X22.  Without [python-docx], a "docx" download is answered with
    status 400 and the installation hint; nothing is streamed. *)
Theorem download_docx_unavailable `{Unicode} `{Libraries} `{ExnText} (resume : str) :
  _DOCX_AVAILABLE = false ->
  download_pdf resume (py "docx")
  = Ok (Json {| success := false;
                message := py "Failed to generate file: DOCX export requires python-docx. Please install it.";
                data := NoData; status_code := 400 |}).
Proof.
  intros Hd. unfold download_pdf.
  rewrite (ExportFacts.generate_docx_missing resume Hd). cbn [exn_message].
  apply RenderFacts.refusal_ok. reflexivity.
Qed.

Lemma download_docx_unavailable_witness :
  @_DOCX_AVAILABLE without_docx = false
  /\ @download_pdf ascii_tables without_docx no_exn_text (py "Jane Doe") (py "docx")
     = Ok (Json {| success := false;
                   message := py "Failed to generate file: DOCX export requires python-docx. Please install it.";
                   data := NoData; status_code := 400 |}).
Proof.
  split; [reflexivity |].
  apply (@download_docx_unavailable ascii_tables without_docx no_exn_text (py "Jane Doe")).
  reflexivity.
Defined.

(** X23.  A "txt" download streams the UTF-8 encoding of the resume as
    the attachment resume.txt when the text has no surrogate; otherwise
    the encoding error is caught and answered with status 400. *)
Theorem download_txt `{Unicode} `{Libraries} `{ExnText} (resume : str) :
  if forallb is_scalar resume
  then exists b,
         encode_utf8 resume = Ok b
         /\ download_pdf resume (py "txt")
            = Ok (Streaming b (py "text/plain; charset=utf-8")
                    [(py "Content-Disposition",
                      py "attachment; filename=" ++ [34] ++ py "resume.txt" ++ [34])])
  else download_pdf resume (py "txt")
       = Ok (Json {| success := false;
                     message := py "Failed to generate file: "
                                ++ builtin_exn_text UnicodeEncodeError;
                     data := NoData; status_code := 400 |}).
Proof.
  unfold download_pdf. rewrite ExportFacts.generate_txt.
  destruct (forallb is_scalar resume) eqn:E.
  - destruct (ExporterFacts.encode_utf8_scalar resume E) as [b Hb].
    exists b. split; [done |]. by rewrite Hb.
  - rewrite (ExporterFacts.encode_utf8_raise resume E). cbn [bind exn_message].
    apply RenderFacts.refusal_ok, RenderFacts.scalar_app;
      [reflexivity | apply RenderFacts.exn_text_scalar].
Qed.

(** X24.  After any sequence of requests to /user/preferences the store
    still has the single key "theme", and its value is the last theme
    that passed validation, or "light" when none did. *)
Theorem preferences_after (themes : list str) :
  dom (run_preferences themes) = ({[ py "theme" ]} : gset (list N))
  /\ run_preferences themes !! py "theme"
     = Some (default (py "light") (last (filter (fun t => valid_theme t = true) themes))).
Proof.
  unfold run_preferences. split.
  - assert (dom initial_preferences = ({[ py "theme" ]} : gset (list N))) as Hi
      by (unfold initial_preferences; by rewrite dom_singleton_L).
    revert Hi. generalize initial_preferences.
    induction themes as [| t themes IH]; intros prefs Hd; [done |].
    cbn [foldl]. apply IH. by apply StoreFacts.post_preferences_dom.
  - apply StoreFacts.foldl_post_preferences.
    unfold initial_preferences. apply lookup_singleton_eq.
Qed.

(** X25.  A request to /user/preferences either fails validation and
    leaves the store alone, or stores the theme and echoes it with
    status 200; the subscript never raises [KeyError], and the answer
    never fails to render. *)
Theorem post_preferences_outcome (prefs : gmap (list N) (list N)) (theme : str) :
  post_preferences prefs theme
  = if valid_theme theme
    then (<[ py "theme" := theme ]> prefs,
          Replied (Json {| success := true; message := py "Preferences saved";
                           data := Theme theme; status_code := 200 |}))
    else (prefs, Invalid).
Proof.
  unfold post_preferences. rewrite StoreFacts.UserPrefRequest_spec.
  destruct (valid_theme theme) eqn:Hv; [| done].
  unfold set_preferences. rewrite lookup_insert_eq.
  unfold json_response. rewrite RenderFacts.JSONResponse_init_ok; [done |].
  repeat constructor. by apply StoreFacts.valid_theme_scalar.
Qed.

(** X26.  The handlers of /suggest and /generate_cover_letter never
    raise: their texts are fixed advice and entries of the vocabulary,
    so the answer always renders, with status 200. *)
Theorem advice_handlers_answer `{Unicode} (resume job_desc : str) :
  suggest resume
  = Ok (Json {| success := true; message := py "Suggestions ready";
                data := GrowthPath (suggest_growth_path resume); status_code := 200 |})
  /\ generate_cover_letter resume job_desc
     = Ok (Json {| success := true; message := py "Cover letter generated";
                   data := CoverLetter (generate_cover_letter_text resume job_desc);
                   status_code := 200 |}).
Proof.
  split; unfold suggest, generate_cover_letter, json_response;
    (rewrite RenderFacts.JSONResponse_init_ok; [done |]);
    (constructor; [reflexivity |]); cbn [data payload_texts].
  - apply RenderFacts.growth_path_scalar.
  - constructor; [apply RenderFacts.cover_letter_scalar | constructor].
Qed.

(** X27.  The handler of /optimize_resume answers with the optimised
    text and status 200 exactly when the resume has no surrogate;
    otherwise the answer cannot be rendered and the handler raises
    [UnicodeEncodeError], outside of any [try]. *)
Theorem optimize_answers (resume : str) :
  optimize resume
  = if forallb is_scalar resume
    then Ok (Json {| success := true; message := py "Resume optimized";
                     data := OptimizedResume (optimize_resume resume);
                     status_code := 200 |})
    else Raise UnicodeEncodeError.
Proof.
  unfold optimize, json_response. destruct (forallb is_scalar resume) eqn:E.
  - rewrite RenderFacts.JSONResponse_init_ok; [done |].
    constructor; [reflexivity |]. constructor; [| constructor].
    by apply RenderFacts.optimize_resume_scalar.
  - apply RenderFacts.JSONResponse_init_raise.
    intros [_ [Ht _]%Forall_cons]%Forall_cons. cbn [data] in Ht.
    pose proof (RenderFacts.optimize_resume_not_scalar resume E). unfold scalar in Ht. congruence.
Qed.
